(** * Conditional-request cache validation of the settings channel

    A shallow embedding of [SettingsChannel]
    (packages/http/config/features/channels/settings.channel.ts): the
    eligibility guard, the ETag / Last-Modified decision procedure, the
    304 rewrite and the two tag comparators, followed by the properties
    the specification states about them.

    Strings are sequences of 8-bit code units (header bytes as the
    runtime decodes them); the response headers are a finite map from
    lower-case header names to string values. *)

From Stdlib Require Import ZArith Lia List Bool Ascii.
From Stdlib Require String.
From stdpp Require Import base option list strings gmap.
Import ListNotations.

Local Open Scope Z_scope.

(** ** JavaScript string primitives used by the channel *)

Module Js.

(** Truthiness of a string value: only the empty string is falsy. *)
Definition truthy (s : string) : bool :=
  match s with
  | EmptyString => false
  | String _ _ => true
  end.

(** Truthiness of a possibly undefined (or null) string. *)
Definition truthy_opt (o : option string) : bool :=
  match o with
  | Some s => truthy s
  | None => false
  end.

(** [s.split(sep)] for a one-character separator: never the empty
    list, [''.split(',')] is [['']]. *)
Fixpoint split (sep : ascii) (s : string) : list string :=
  match s with
  | EmptyString => [EmptyString]
  | String c rest =>
      if Ascii.eqb c sep then EmptyString :: split sep rest
      else match split sep rest with
           | piece :: pieces => String c piece :: pieces
           | [] => [String c EmptyString]
           end
  end.

(** White space removed by [trim], among the 8-bit code units:
    TAB, LF, VT, FF, CR, SPACE and NBSP. *)
Definition is_space (c : ascii) : bool :=
  match nat_of_ascii c with
  | 9%nat | 10%nat | 11%nat | 12%nat | 13%nat | 32%nat | 160%nat => true
  | _ => false
  end.

Fixpoint trimStart (s : string) : string :=
  match s with
  | EmptyString => EmptyString
  | String c rest => if is_space c then trimStart rest else s
  end.

Fixpoint trimEnd (s : string) : string :=
  match s with
  | EmptyString => EmptyString
  | String c rest =>
      match trimEnd rest with
      | EmptyString => if is_space c then EmptyString else String c EmptyString
      | kept => String c kept
      end
  end.

(** [s.trim()] *)
Definition trim (s : string) : string := trimEnd (trimStart s).

(** [s.includes(c)] for a one-character needle. *)
Fixpoint includes (c : ascii) (s : string) : bool :=
  match s with
  | EmptyString => false
  | String d rest => Ascii.eqb d c || includes c rest
  end.

(** [s.replace(/c/g, '')] for a one-character pattern [c]: every
    occurrence of the character is removed. *)
Fixpoint remove_all (c : ascii) (s : string) : string :=
  match s with
  | EmptyString => EmptyString
  | String d rest =>
      if Ascii.eqb d c then remove_all c rest else String d (remove_all c rest)
  end.

End Js.

(** ** The tag comparators *)

Definition comma : ascii := ","%char.
Definition dquote : ascii := "034"%char.

(** [normalizeETag]: a leading W/ marker is removed, matched with the
    [i] flag (so w/ as well), then every double quote is removed. *)
Definition normalizeETag (etag : string) : string :=
  let unweakened :=
    match etag with
    | String c1 (String c2 rest) =>
        if (Ascii.eqb c1 "W" || Ascii.eqb c1 "w") && Ascii.eqb c2 "/"
        then rest else etag
    | _ => etag
    end in
  Js.remove_all dquote unweakened.

(** [normalize]: as [normalizeETag], but the marker is matched without
    the [i] flag, so only an upper-case W/ is removed. *)
Definition normalize (etag : string) : string :=
  let unweakened :=
    match etag with
    | String c1 (String c2 rest) =>
        if Ascii.eqb c1 "W" && Ascii.eqb c2 "/" then rest else etag
    | _ => etag
    end in
  Js.remove_all dquote unweakened.

(** [clientETags.some(...)] of [anyETagMatches]. *)
Definition anyETagMatches (clientETags : list string) (serverETag : string) : bool :=
  existsb
    (fun clientETag =>
       if String.eqb clientETag "*" then true
       else String.eqb (normalizeETag clientETag) (normalizeETag serverETag))
    clientETags.

(** [tags.some(f)] for a callback that may run out of fuel: stops at the
    first tag the callback accepts. *)
Definition some_fuel (f : string -> option bool) : list string -> option bool :=
  fix some (tags : list string) : option bool :=
    match tags with
    | [] => Some false
    | tag :: tags' =>
        match f tag with
        | Some true => Some true
        | Some false => some tags'
        | None => None
        end
    end.

(** [compareETags] calls itself on the pieces of a comma-separated
    value.  The recursion is bounded by [fuel]; [None] means the bound
    was reached. *)
Fixpoint compareETags_fuel (fuel : nat) (clientETag serverETag : string)
  : option bool :=
  match fuel with
  | O => None
  | S fuel' =>
      if negb (Js.truthy clientETag) || negb (Js.truthy serverETag) then Some false
      else if String.eqb clientETag "*" then Some true
      else if Js.includes comma clientETag then
        some_fuel (fun tag => compareETags_fuel fuel' tag serverETag)
                  (map Js.trim (Js.split comma clientETag))
      else Some (String.eqb (normalize clientETag) (normalize serverETag))
  end.

(** The pieces of a split contain no comma, so two levels always suffice. *)
Definition compareETags (clientETag serverETag : string) : option bool :=
  compareETags_fuel 2 clientETag serverETag.


(** One comparison of a value without a comma: the recursion stops. *)
Definition compareSingle (clientETag serverETag : string) : bool :=
  if negb (Js.truthy clientETag) || negb (Js.truthy serverETag) then false
  else if String.eqb clientETag "*" then true
  else String.eqb (normalize clientETag) (normalize serverETag).

(** What [compareETags] computes, without recursion. *)
Definition compareETags_value (clientETag serverETag : string) : bool :=
  if negb (Js.truthy clientETag) || negb (Js.truthy serverETag) then false
  else if String.eqb clientETag "*" then true
  else if Js.includes comma clientETag then
    existsb (fun tag => compareSingle tag serverETag)
            (map Js.trim (Js.split comma clientETag))
  else String.eqb (normalize clientETag) (normalize serverETag).

(** A strong tag and a weak tag around an opaque identifier. *)
Definition strongTag (x : string) : string :=
  String dquote (x +:+ String dquote EmptyString).
Definition weakTag (x : string) : string := "W/" +:+ strongTag x.

(** ** Configuration, context and the calls that leave the module *)

(** Modelled from the spec: the types [EntityTagStrength],
    [EntityTagAlgorithm] and [SettingsOptions] are imported from files
    that are not among the sources.  The strength is strong or weak, and
    the algorithm is a digest selected by its name (sha256, md5, sha1). *)
Inductive EntityTagStrength := strong | weak.

Record EntityTagOptions := {
  opt_strength : option EntityTagStrength;
  opt_algorithm : option string
}.

Record SettingsOptions := {
  etag : option EntityTagOptions;
  poweredBy : option string
}.

(** The two fields the constructor derives, next to the options read later. *)
Record SettingsChannel := {
  strength : EntityTagStrength;
  algorithm : string;
  settings : SettingsOptions
}.

(** [this.get('etag')?.strength ?? 'strong'] and
    [this.get('etag')?.algorithm ?? 'sha256']. *)
Definition newSettingsChannel (options : SettingsOptions) : SettingsChannel :=
  {| strength := default strong (etag options ≫= opt_strength);
     algorithm := default "sha256" (etag options ≫= opt_algorithm);
     settings := options |}.

(** Modelled from the spec: the interface [HttpContext] and its header
    store are not among the sources.  The record has the members the
    channel touches.  The body is text once the downstream handlers have
    produced it, [None] standing for null or undefined; the headers are a
    plain map from header names to string values, which [get] looks up,
    [set] inserts into and [remove] deletes from. *)
Record HttpContext := {
  method : string;
  status : Z;
  body : option string;
  header : gmap string string;
  subdomains : list string
}.

Definition with_status (v : Z) (ctx : HttpContext) : HttpContext :=
  {| method := method ctx; status := v; body := body ctx;
     header := header ctx; subdomains := subdomains ctx |}.

Definition with_body (v : option string) (ctx : HttpContext) : HttpContext :=
  {| method := method ctx; status := status ctx; body := v;
     header := header ctx; subdomains := subdomains ctx |}.

Definition with_header (v : gmap string string) (ctx : HttpContext) : HttpContext :=
  {| method := method ctx; status := status ctx; body := body ctx;
     header := v; subdomains := subdomains ctx |}.

Definition with_subdomains (v : list string) (ctx : HttpContext) : HttpContext :=
  {| method := method ctx; status := status ctx; body := body ctx;
     header := header ctx; subdomains := v |}.

(** The snapshot [clientValidation] taken before [next()]. *)
Record ClientValidation := {
  cv_etag : option string;
  cv_modifiedSince : option string
}.

(** Which way [handleCacheValidation] returned: after [sendNotModified]
    or by falling off its end. *)
Inductive ValidationOutcome := Continue | NotModified.

(** Calls to code outside the channel, recorded in program order. *)
Inductive Call :=
| CallGenerateETag (content : option string) (algo : string) (str : EntityTagStrength)
| CallNewDate (dateString : string).

(** ** A state monad over the context and the call record *)

Record World := { ctx : HttpContext; calls : list Call }.

Definition M (A : Type) : Type := World -> A * World.

Definition ret {A} (a : A) : M A := fun w => (a, w).

Definition bind {A B} (m : M A) (k : A -> M B) : M B :=
  fun w => let '(a, w') := m w in k a w'.

Declare Scope channel_scope.
Delimit Scope channel_scope with channel.
Notation "'let*' x ':=' m 'in' k" := (bind m (fun x => k))
  (at level 10, x name, m at level 100, k at level 200) : channel_scope.
Notation "m ';;' k" := (bind m (fun _ => k))
  (at level 100, k at level 200, right associativity) : channel_scope.
Local Open Scope channel_scope.

Definition getCtx : M HttpContext := fun w => (ctx w, w).

Definition modifyCtx (f : HttpContext -> HttpContext) : M unit :=
  fun w => (tt, {| ctx := f (ctx w); calls := calls w |}).

Definition record (c : Call) : M unit :=
  fun w => (tt, {| ctx := ctx w; calls := calls w ++ [c] |}).

(** [ctx.header.get], [ctx.header.set] and [ctx.header.remove] on the
    header map; [get] answers [None] for undefined. *)
Definition header_get (name : string) : M (option string) :=
  let* c := getCtx in ret (header c !! name).

Definition header_set (name value : string) : M unit :=
  modifyCtx (fun c => with_header (<[name := value]> (header c)) c).

Definition header_remove (name : string) : M unit :=
  modifyCtx (fun c => with_header (delete name (header c)) c).

Section Channel.

(** The digest behind [generateETag]: algorithm name and content to
    lower-case hexadecimal text. *)
Variable digest : string -> string -> string.

(** The time value of [new Date(dateString)] in milliseconds, [None]
    when it is NaN. *)
Variable dateParse : string -> option Z.

(** [_getSubdomains], which the validation does not read. *)
Variable getSubdomains : SettingsChannel -> HttpContext -> list string.

(** Modelled from the spec: [generateETag] of [../utils] is not among
    the sources.  The spec's generator hashes the body with the
    selected algorithm, hex-encodes the digest and wraps it in quotes,
    with the W/ prefix when the strength is weak; an absent body is
    hashed as empty content. *)
Definition generateETag (content : option string) (algo : string)
    (str : EntityTagStrength) : string :=
  let hex := digest algo (default EmptyString content) in
  match str with
  | strong => strongTag hex
  | weak => weakTag hex
  end.

Definition call_generateETag (content : option string) (algo : string)
    (str : EntityTagStrength) : M string :=
  record (CallGenerateETag content algo str);;
  ret (generateETag content algo str).

(** [parseDate]: a [Date] unless its time value is NaN. *)
Definition parseDate (dateString : string) : M (option Z) :=
  record (CallNewDate dateString);;
  ret (dateParse dateString).

Definition sendNotModified : M unit :=
  modifyCtx (with_status 304);;
  modifyCtx (with_body None);;
  header_remove "content-type";;
  header_remove "content-length".

(** Lines 49-54: whether the ETag branch reaches [sendNotModified]. *)
Definition etagValidation (clientValidation : ClientValidation)
    (serverETag : string) : bool :=
  match cv_etag clientValidation with
  | Some value =>
      if Js.truthy value then
        let clientETags := map Js.trim (Js.split comma value) in
        anyETagMatches clientETags serverETag
      else false
  | None => false
  end.

(** Lines 61-72: the Last-Modified branch and the end of the function. *)
Definition lastModifiedValidation (clientValidation : ClientValidation)
  : M ValidationOutcome :=
  match cv_modifiedSince clientValidation with
  | Some since =>
      if Js.truthy since then
        let* lastModifiedHeader := header_get "last-modified" in
        match lastModifiedHeader with
        | Some value =>
            if Js.truthy value then
              let* lastModified := parseDate value in
              let* modifiedSince := parseDate since in
              match lastModified, modifiedSince with
              | Some t1, Some t2 =>
                  if t1 <=? t2 then sendNotModified;; ret NotModified
                  else ret Continue
              | _, _ => ret Continue
              end
            else ret Continue
        | None => ret Continue
        end
      else ret Continue
  | None => ret Continue
  end.

Definition handleCacheValidation (self : SettingsChannel)
    (clientValidation : ClientValidation) : M ValidationOutcome :=
  let* c := getCtx in
  let* serverETag := call_generateETag (body c) (algorithm self) (strength self) in
  header_set "etag" serverETag;;
  if etagValidation clientValidation serverETag
  then sendNotModified;; ret NotModified
  else lastModifiedValidation clientValidation.

Definition shouldProcessValidation (c : HttpContext) : bool :=
  (String.eqb (method c) "GET" || String.eqb (method c) "HEAD")
  && (200 <=? status c) && (status c <? 300)
  && Js.truthy_opt (body c)
  && negb (Js.truthy_opt (header c !! "etag")).

(** Lines 31-33: the step after [await next()]. *)
Definition validationStep (self : SettingsChannel)
    (clientValidation : ClientValidation) : M ValidationOutcome :=
  let* c := getCtx in
  if shouldProcessValidation c
  then handleCacheValidation self clientValidation
  else ret Continue.

(** The middleware; [next] is the rest of the pipeline. *)
Definition createMiddleware (self : SettingsChannel) (next : M unit)
  : M ValidationOutcome :=
  match poweredBy (settings self) with
  | Some value =>
      if Js.truthy value then header_set "x-powered-by" value else ret tt
  | None => ret tt
  end;;
  let* c := getCtx in
  modifyCtx (with_subdomains (getSubdomains self c));;
  let* ifNoneMatch := header_get "if-none-match" in
  let* ifModifiedSince := header_get "if-modified-since" in
  let clientValidation :=
    {| cv_etag := ifNoneMatch; cv_modifiedSince := ifModifiedSince |} in
  next;;
  validationStep self clientValidation.

End Channel.

(** The context after line 46: the fingerprint attached as ETag header. *)
Definition attachETag (serverETag : string) (c : HttpContext) : HttpContext :=
  with_header (<["etag" := serverETag]> (header c)) c.

(** The context [sendNotModified] leaves behind. *)
Definition rewrite304 (c : HttpContext) : HttpContext :=
  with_header (delete "content-length" (delete "content-type" (header c)))
    (with_body None (with_status 304 c)).

(** ** Sample collaborators for the scenarios

    The properties below hold for every digest and every date parser.
    The scenarios run them with the two instances of this section: a
    digest that returns the content itself, and a parser of the HTTP
    fixed-length date format, e.g. Wed, 01 Jan 2020 00:00:00 GMT. *)

Module Sample.

Definition plainDigest (algo content : string) : string := content.

Definition digitValue (c : ascii) : option Z :=
  let n := Z.of_nat (nat_of_ascii c) in
  if (48 <=? n) && (n <=? 57) then Some (n - 48) else None.

Definition isLetter (c : ascii) : bool :=
  let n := Z.of_nat (nat_of_ascii c) in
  ((65 <=? n) && (n <=? 90)) || ((97 <=? n) && (n <=? 122)).

(** Reads [n] decimal digits from the front of the input. *)
Fixpoint digits (n : nat) (acc : Z) (s : string) : option (Z * string) :=
  match n with
  | O => Some (acc, s)
  | S n' =>
      match s with
      | String c rest =>
          d ← digitValue c; digits n' (10 * acc + d) rest
      | EmptyString => None
      end
  end.

(** Consumes the literal [lit] from the front of the input. *)
Fixpoint expect (lit s : string) : option string :=
  match lit with
  | EmptyString => Some s
  | String c lit' =>
      match s with
      | String d rest => if Ascii.eqb c d then expect lit' rest else None
      | EmptyString => None
      end
  end.

Definition monthNames : list string :=
  ["Jan"; "Feb"; "Mar"; "Apr"; "May"; "Jun";
   "Jul"; "Aug"; "Sep"; "Oct"; "Nov"; "Dec"].

Fixpoint monthOf (names : list string) (index : Z) (s : string)
  : option (Z * string) :=
  match names with
  | [] => None
  | name :: names' =>
      match expect name s with
      | Some rest => Some (index, rest)
      | None => monthOf names' (index + 1) s
      end
  end.

Definition dayName (s : string) : option string :=
  match s with
  | String a (String b (String c rest)) =>
      if isLetter a && isLetter b && isLetter c then Some rest else None
  | _ => None
  end.

(** Days between 1970-01-01 and the given civil date. *)
Definition daysFromCivil (y m d : Z) : Z :=
  let y' := if m <=? 2 then y - 1 else y in
  let era := y' / 400 in
  let yoe := y' - era * 400 in
  let mp := if 2 <? m then m - 3 else m + 9 in
  let doy := (153 * mp + 2) / 5 + d - 1 in
  let doe := yoe * 365 + yoe / 4 - yoe / 100 + doy in
  era * 146097 + doe - 719468.

Definition imfFixdate (s : string) : option Z :=
  s ← dayName s;
  s ← expect ", " s;
  '(d, s) ← digits 2 0 s;
  s ← expect " " s;
  '(m, s) ← monthOf monthNames 1 s;
  s ← expect " " s;
  '(y, s) ← digits 4 0 s;
  s ← expect " " s;
  '(hh, s) ← digits 2 0 s;
  s ← expect ":" s;
  '(mm, s) ← digits 2 0 s;
  s ← expect ":" s;
  '(ss, s) ← digits 2 0 s;
  s ← expect " GMT" s;
  match s with
  | EmptyString =>
      if (1 <=? d) && (d <=? 31) && (hh <? 24) && (mm <? 60) && (ss <? 60)
      then Some ((((daysFromCivil y m d * 24 + hh) * 60 + mm) * 60 + ss) * 1000)
      else None
  | String _ _ => None
  end.

Definition noSubdomains (self : SettingsChannel) (c : HttpContext)
  : list string := [].

(** A request that carries both validators, before any handler ran. *)
Definition request : HttpContext :=
  {| method := "GET"; status := 200; body := None;
     header := {[ "if-none-match" := "W/" +:+ strongTag "abc";
                  "if-modified-since" := "Wed, 01 Jan 2020 00:00:00 GMT" ]};
     subdomains := [] |}.

(** A downstream handler: it produces the body abc and drops the request
    validators from the header map. *)
Definition handler : M unit :=
  modifyCtx (with_body (Some "abc"));;
  header_set "content-type" "text/plain";;
  header_remove "if-none-match";;
  header_remove "if-modified-since".

Definition defaults : SettingsChannel :=
  newSettingsChannel {| etag := None; poweredBy := None |}.

Definition start (c : HttpContext) : World := {| ctx := c; calls := [] |}.

(** A page served with status 200 and body abc, last modified on the
    last day of 2019. *)
Definition page : HttpContext :=
  {| method := "GET"; status := 200; body := Some "abc";
     header := {[ "content-type" := "text/plain";
                  "content-length" := "3";
                  "x-request-id" := "7";
                  "last-modified" := "Tue, 31 Dec 2019 00:00:00 GMT" ]};
     subdomains := [] |}.

Definition newYear2020 : string := "Wed, 01 Jan 2020 00:00:00 GMT".

Definition validators (ifNoneMatch ifModifiedSince : option string)
  : ClientValidation :=
  {| cv_etag := ifNoneMatch; cv_modifiedSince := ifModifiedSince |}.

End Sample.


(** ** Subdomains: [_isIPAddress] and [_getSubdomains] *)

Module JsArray.

(** [array.slice(start, end)]: a negative index counts from the end, and
    both bounds are clamped to the array. *)
Definition slice {A : Type} (l : list A) (start stop : Z) : list A :=
  let len := Z.of_nat (length l) in
  let clamp (i : Z) := if i <? 0 then Z.max (len + i) 0 else Z.min i len in
  let k := clamp start in
  let final := clamp stop in
  firstn (Z.to_nat (final - k)) (skipn (Z.to_nat k) l).

End JsArray.

Definition dot : ascii := "."%char.
Definition colon : ascii := ":"%char.

Fixpoint all_chars (p : ascii -> bool) (s : string) : bool :=
  match s with
  | EmptyString => true
  | String c rest => p c && all_chars p rest
  end.

(** The class [\d]. *)
Definition isDigit (c : ascii) : bool :=
  (48 <=? nat_of_ascii c)%nat && (nat_of_ascii c <=? 57)%nat.

(** The class [[0-9a-fA-F]]. *)
Definition isHexDigit (c : ascii) : bool :=
  isDigit c
  || ((65 <=? nat_of_ascii c)%nat && (nat_of_ascii c <=? 70)%nat)
  || ((97 <=? nat_of_ascii c)%nat && (nat_of_ascii c <=? 102)%nat).

(** A whole piece against [\d{1,3}]. *)
Definition digitGroup (s : string) : bool :=
  (1 <=? String.length s)%nat && (String.length s <=? 3)%nat
  && all_chars isDigit s.

(** A whole piece against [[0-9a-fA-F]{1,4}]. *)
Definition hexGroup (s : string) : bool :=
  (1 <=? String.length s)%nat && (String.length s <=? 4)%nat
  && all_chars isHexDigit s.

(** [ipv4Regex.test(str)]: the pattern is anchored at both ends and its
    four groups hold no dot, so it matches exactly the strings whose
    pieces between dots are four groups of one to three digits. *)
Definition ipv4Regex (str : string) : bool :=
  let pieces := Js.split dot str in
  (length pieces =? 4)%nat && forallb digitGroup pieces.

(** [ipv6Regex.test(str)]: eight groups of one to four hexadecimal
    digits with a colon between them. *)
Definition ipv6Regex (str : string) : bool :=
  let pieces := Js.split colon str in
  (length pieces =? 8)%nat && forallb hexGroup pieces.

(** The digits at the front of the input as a number, [acc] when there
    is none. *)
Fixpoint leadingDigits (acc : option Z) (s : string) : option Z :=
  match s with
  | String c rest =>
      if isDigit c
      then leadingDigits
             (Some (10 * default 0 acc + Z.of_nat (nat_of_ascii c - 48))) rest
      else acc
  | EmptyString => acc
  end.

(** [parseInt(s, 10)]: leading white space and one sign are skipped, the
    digits that follow are read, and the answer is NaN ([None]) when
    there is no digit. *)
Definition parseInt10 (s : string) : option Z :=
  match Js.trimStart s with
  | String "-" rest => Z.opp <$> leadingDigits None rest
  | String "+" rest => leadingDigits None rest
  | unsigned => leadingDigits None unsigned
  end.

(** [part >= 0 && part <= 255]; both comparisons are false on NaN. *)
Definition inByteRange (part : option Z) : bool :=
  match part with
  | Some n => (0 <=? n) && (n <=? 255)
  | None => false
  end.

Definition _isIPAddress (str : string) : bool :=
  if ipv4Regex str then
    let parts := map parseInt10 (Js.split dot str) in
    forallb inByteRange parts
  else ipv6Regex str.

(** [_getSubdomains] reads [ctx.host], null or undefined as [None], and
    the integer setting [subdomainOffset]. *)
Definition _getSubdomains (subdomainOffset : Z) (host : option string)
  : list string :=
  match host with
  | None => []
  | Some host =>
      let hostname := hd EmptyString (Js.split colon host) in
      if _isIPAddress hostname then []
      else
        let segments := Js.split dot hostname in
        let subdomains :=
          JsArray.slice segments 0 (Z.of_nat (length segments) - subdomainOffset) in
        rev subdomains
  end.

(** [pieces.join(sep)] for a one-character separator. *)
Fixpoint join (sep : ascii) (pieces : list string) : string :=
  match pieces with
  | [] => EmptyString
  | [piece] => piece
  | piece :: rest => piece +:+ String sep (join sep rest)
  end.

(** [String(n)] for an integer from 0 to 999: decimal digits without
    leading zeros. *)
Definition decimal (n : Z) : string :=
  let digit (d : Z) := ascii_of_nat (48 + Z.to_nat d) in
  if n <? 10 then String (digit n) EmptyString
  else if n <? 100 then String (digit (n / 10)) (String (digit (n mod 10)) EmptyString)
  else String (digit (n / 100))
         (String (digit ((n / 10) mod 10)) (String (digit (n mod 10)) EmptyString)).

(** Whether a tag starts with the weak marker in lower case, the one
    spelling [normalizeETag] removes and [normalize] keeps. *)
Definition hasLowerMarker (etag : string) : bool :=
  match etag with
  | String c1 (String c2 _) => Ascii.eqb c1 "w" && Ascii.eqb c2 "/"
  | _ => false
  end.

(** ** The comparison as the specification words it

    The definitions of this part follow the words of the specification,
    not the code: what a comma-separated decomposition is, what trimming
    leaves, and when two tags are equal after normalisation.  They are
    compared with [Js.split], [Js.trim] and [normalizeETag] below. *)











(** * Properties *)

(** ** Strings *)

Lemma truthy_true (s : string) : Js.truthy s = true <-> s <> EmptyString.
Proof. destruct s; simpl; split; congruence. Qed.

Lemma truthy_false (s : string) : Js.truthy s = false <-> s = EmptyString.
Proof. destruct s; simpl; split; congruence. Qed.

Lemma append_cons (c : ascii) (s t : string) :
  String c s +:+ t = String c (s +:+ t).
Proof. reflexivity. Qed.

Lemma append_empty_r (s : string) : s +:+ EmptyString = s.
Proof.
  induction s as [|c s IH]; [reflexivity|]. now rewrite append_cons, IH.
Qed.

Lemma remove_all_app (c : ascii) (s t : string) :
  Js.remove_all c (s +:+ t) = Js.remove_all c s +:+ Js.remove_all c t.
Proof.
  induction s as [|d s IH]; [reflexivity|].
  rewrite append_cons. cbn [Js.remove_all]. rewrite IH.
  destruct (Ascii.eqb d c); reflexivity.
Qed.

Lemma remove_all_strongTag (x : string) :
  Js.remove_all dquote (strongTag x) = Js.remove_all dquote x.
Proof.
  unfold strongTag.
  change (String dquote (x +:+ String dquote EmptyString))
    with (String dquote EmptyString +:+ (x +:+ String dquote EmptyString)).
  rewrite !remove_all_app.
  change (Js.remove_all dquote (String dquote EmptyString)) with EmptyString.
  rewrite append_empty_r. reflexivity.
Qed.

Lemma normalizeETag_strongTag (x : string) :
  normalizeETag (strongTag x) = Js.remove_all dquote x.
Proof.
  rewrite <- remove_all_strongTag.
  destruct x as [|c x]; reflexivity.
Qed.

Lemma normalizeETag_weakTag (x : string) :
  normalizeETag (weakTag x) = Js.remove_all dquote x.
Proof. rewrite <- remove_all_strongTag. reflexivity. Qed.

Lemma normalize_strongTag (x : string) :
  normalize (strongTag x) = Js.remove_all dquote x.
Proof.
  rewrite <- remove_all_strongTag.
  destruct x as [|c x]; reflexivity.
Qed.

Lemma normalize_weakTag (x : string) :
  normalize (weakTag x) = Js.remove_all dquote x.
Proof. rewrite <- remove_all_strongTag. reflexivity. Qed.

(** X8. The pipeline's comparator matches a strong and a weak tag of one
    identifier, whichever side is weak, for every identifier. *)
Lemma anyETagMatches_weak_strong (x : string) :
  anyETagMatches [strongTag x] (weakTag x) = true
  /\ anyETagMatches [weakTag x] (strongTag x) = true.
Proof.
  unfold anyETagMatches. cbn [existsb].
  rewrite !normalizeETag_strongTag, !normalizeETag_weakTag, String.eqb_refl.
  split; rewrite orb_false_r.
  - destruct (String.eqb (strongTag x) "*"); reflexivity.
  - destruct (String.eqb (weakTag x) "*"); reflexivity.
Qed.


(** ** The public comparator terminates *)

Lemma split_pieces_no_sep (sep : ascii) (s : string) :
  Forall (fun piece => Js.includes sep piece = false) (Js.split sep s).
Proof.
  induction s as [|c s IH]; cbn [Js.split].
  - repeat constructor.
  - destruct (Ascii.eqb c sep) eqn:E.
    + constructor; [reflexivity | exact IH].
    + destruct (Js.split sep s) as [|piece pieces].
      * repeat constructor. cbn. now rewrite E.
      * inversion IH as [|? ? Hpiece Hpieces]; subst.
        constructor; [|assumption]. cbn. now rewrite E.
Qed.

Lemma trimStart_no_sep (sep : ascii) (s : string) :
  Js.includes sep s = false -> Js.includes sep (Js.trimStart s) = false.
Proof.
  induction s as [|c s IH]; cbn; [reflexivity|].
  intros H. apply orb_false_iff in H as [Hc Hs].
  destruct (Js.is_space c); [auto|]. cbn. now rewrite Hc, Hs.
Qed.

Lemma trimEnd_no_sep (sep : ascii) (s : string) :
  Js.includes sep s = false -> Js.includes sep (Js.trimEnd s) = false.
Proof.
  induction s as [|c s IH]; cbn; [reflexivity|].
  intros H. apply orb_false_iff in H as [Hc Hs].
  specialize (IH Hs).
  destruct (Js.trimEnd s) as [|d kept].
  - destruct (Js.is_space c); cbn; [reflexivity|]. now rewrite Hc.
  - cbn in *. now rewrite Hc, IH.
Qed.

Lemma trim_no_sep (sep : ascii) (s : string) :
  Js.includes sep s = false -> Js.includes sep (Js.trim s) = false.
Proof. intros H. apply trimEnd_no_sep, trimStart_no_sep, H. Qed.

Lemma client_pieces_no_comma (value : string) :
  Forall (fun tag => Js.includes comma tag = false)
         (map Js.trim (Js.split comma value)).
Proof.
  induction (split_pieces_no_sep comma value) as [|piece pieces H _ IH];
    cbn [map]; constructor; [apply trim_no_sep, H | exact IH].
Qed.

Lemma compareETags_fuel_single (n : nat) (clientETag serverETag : string) :
  Js.includes comma clientETag = false ->
  compareETags_fuel (S n) clientETag serverETag
  = Some (compareSingle clientETag serverETag).
Proof.
  intros H. cbn [compareETags_fuel]. unfold compareSingle. rewrite H.
  destruct (negb (Js.truthy clientETag) || negb (Js.truthy serverETag));
    [reflexivity|].
  destruct (String.eqb clientETag "*"); reflexivity.
Qed.

Lemma some_fuel_pieces (n : nat) (serverETag : string) (tags : list string) :
  Forall (fun tag => Js.includes comma tag = false) tags ->
  some_fuel (fun tag => compareETags_fuel (S n) tag serverETag) tags
  = Some (existsb (fun tag => compareSingle tag serverETag) tags).
Proof.
  induction 1 as [|tag tags Htag _ IH]; [reflexivity|].
  cbn [some_fuel existsb]. rewrite (compareETags_fuel_single n _ _ Htag).
  destruct (compareSingle tag serverETag); [reflexivity|].
  fold (some_fuel (fun tag0 => compareETags_fuel (S n) tag0 serverETag)).
  rewrite IH. reflexivity.
Qed.

(** Two levels of recursion are enough for every input, and more fuel
    changes nothing: the public comparator always returns. *)
Lemma compareETags_total (n : nat) (clientETag serverETag : string) :
  compareETags_fuel (2 + n) clientETag serverETag
  = Some (compareETags_value clientETag serverETag)
  /\ compareETags clientETag serverETag
     = Some (compareETags_value clientETag serverETag).
Proof.
  assert (G : forall k, compareETags_fuel (S (S k)) clientETag serverETag
                        = Some (compareETags_value clientETag serverETag)).
  { intros k. cbn [compareETags_fuel]. unfold compareETags_value.
    destruct (negb (Js.truthy clientETag) || negb (Js.truthy serverETag));
      [reflexivity|].
    destruct (String.eqb clientETag "*"); [reflexivity|].
    destruct (Js.includes comma clientETag); [|reflexivity].
    apply (some_fuel_pieces k), client_pieces_no_comma. }
  split; [apply (G n) | apply (G 0%nat)].
Qed.

(** ** The validation step *)

Section Validation.

Variable digest : string -> string -> string.
Variable dateParse : string -> option Z.

(** [new Date('')] is an invalid date. *)
Hypothesis dateParse_empty : dateParse EmptyString = None.

Local Abbreviation fingerprint self w :=
  (generateETag digest (body (ctx w)) (algorithm self) (strength self)).
Local Abbreviation generated self w :=
  (CallGenerateETag (body (ctx w)) (algorithm self) (strength self)).
Local Abbreviation handle := (handleCacheValidation digest dateParse).
Local Abbreviation step := (validationStep digest dateParse).

Lemma shouldProcessValidation_true (c : HttpContext) :
  shouldProcessValidation c = true
  <-> (method c = "GET" \/ method c = "HEAD")
      /\ 200 <= status c < 300
      /\ (exists b, body c = Some b /\ b <> EmptyString)
      /\ ~ (exists v, header c !! "etag" = Some v /\ v <> EmptyString).
Proof.
  unfold shouldProcessValidation.
  rewrite !andb_true_iff, orb_true_iff, !String.eqb_eq, negb_true_iff,
    Z.leb_le, Z.ltb_lt.
  assert (B : Js.truthy_opt (body c) = true
              <-> exists b, body c = Some b /\ b <> EmptyString).
  { destruct (body c) as [b|]; cbn.
    - rewrite truthy_true. split; [eauto|]. now intros (? & [= <-] & ?).
    - split; [discriminate|]. now intros (? & ? & _). }
  assert (E : Js.truthy_opt (header c !! "etag") = false
              <-> ~ (exists v, header c !! "etag" = Some v /\ v <> EmptyString)).
  { destruct (header c !! "etag") as [v|]; cbn.
    - rewrite truthy_false. split.
      + intros -> (? & [= <-] & ?). congruence.
      + intros H. destruct v; [reflexivity|].
        exfalso. apply H. eexists. split; [reflexivity | discriminate].
    - split; [|reflexivity]. now intros _ (? & ? & _). }
  rewrite B, E. tauto.
Qed.

Lemma step_skips (self : SettingsChannel) (cv : ClientValidation) (w : World) :
  shouldProcessValidation (ctx w) = false -> step self cv w = (Continue, w).
Proof. intros H. unfold validationStep, bind, getCtx. now rewrite H. Qed.

Lemma step_runs (self : SettingsChannel) (cv : ClientValidation) (w : World) :
  shouldProcessValidation (ctx w) = true -> step self cv w = handle self cv w.
Proof. intros H. unfold validationStep, bind, getCtx. now rewrite H. Qed.

(** C1, amended. A response is left alone by the step after [next()] as
    soon as one eligibility condition fails: the method is neither GET nor
    HEAD, or the status is outside 200..299, or the body is absent or
    empty, or an ETag header with a non-empty value is already there.  The outcome is
    [Continue] and the world is the one the step started from: the
    context (status, body, headers) is the same and no call to
    [generateETag] was recorded. *)
Theorem ineligible_response_untouched
    (self : SettingsChannel) (cv : ClientValidation) (w : World) :
  (method (ctx w) <> "GET" /\ method (ctx w) <> "HEAD")
  \/ status (ctx w) < 200
  \/ 300 <= status (ctx w)
  \/ body (ctx w) = None
  \/ body (ctx w) = Some EmptyString
  \/ (exists v, header (ctx w) !! "etag" = Some v /\ v <> EmptyString) ->
  step self cv w = (Continue, w).
Proof.
  intros H. apply step_skips.
  destruct (shouldProcessValidation (ctx w)) eqn:E; [|reflexivity].
  apply shouldProcessValidation_true in E
    as (Hm & Hs & (b & Hb & Hne) & He).
  exfalso.
  destruct H as [[H1 H2] | [H | [H | [H | [H | H]]]]];
    [tauto | lia | lia | congruence | congruence | tauto].
Qed.

(** The world after lines 45-46: the fingerprint generated and attached. *)
Lemma handle_run (self : SettingsChannel) (cv : ClientValidation) (w : World) :
  handle self cv w
  = let w1 := {| ctx := attachETag (fingerprint self w) (ctx w);
                 calls := calls w ++ [generated self w] |} in
    if etagValidation cv (fingerprint self w)
    then (NotModified, {| ctx := rewrite304 (ctx w1); calls := calls w1 |})
    else lastModifiedValidation dateParse cv w1.
Proof.
  unfold handleCacheValidation, bind, getCtx, call_generateETag, bind, record,
    ret, header_set, modifyCtx. cbn [ctx calls].
  destruct (etagValidation cv (fingerprint self w)); reflexivity.
Qed.

Lemma sendNotModified_run (w : World) :
  sendNotModified w = (tt, {| ctx := rewrite304 (ctx w); calls := calls w |}).
Proof. reflexivity. Qed.

Lemma attachETag_other (serverETag name : string) (c : HttpContext) :
  name <> "etag" ->
  header (attachETag serverETag c) !! name = header c !! name.
Proof. intros H. cbn. apply lookup_insert_ne. congruence. Qed.

(** The date branch when both headers are there with a value. *)
Lemma lastModified_run (cv : ClientValidation) (w : World) (since lm : string) :
  cv_modifiedSince cv = Some since -> since <> EmptyString ->
  header (ctx w) !! "last-modified" = Some lm -> lm <> EmptyString ->
  lastModifiedValidation dateParse cv w
  = let w2 := {| ctx := ctx w;
                 calls := (calls w ++ [CallNewDate lm]) ++ [CallNewDate since] |} in
    match dateParse lm, dateParse since with
    | Some t1, Some t2 =>
        if t1 <=? t2
        then (NotModified, {| ctx := rewrite304 (ctx w); calls := calls w2 |})
        else (Continue, w2)
    | _, _ => (Continue, w2)
    end.
Proof.
  intros Hs Hsne Hl Hlne. unfold lastModifiedValidation. rewrite Hs.
  apply truthy_true in Hsne, Hlne. rewrite Hsne.
  unfold bind, header_get, bind, getCtx, ret. rewrite Hl, Hlne.
  unfold parseDate, bind, record, ret. cbn [ctx calls].
  destruct (dateParse lm) as [t1|], (dateParse since) as [t2|]; try reflexivity.
  destruct (t1 <=? t2); reflexivity.
Qed.

(** The date branch never records a call nor touches the context when
    it does not reach its comparison. *)
Lemma lastModified_continue (cv : ClientValidation) (w : World) :
  fst (lastModifiedValidation dateParse cv w) = Continue ->
  ctx (snd (lastModifiedValidation dateParse cv w)) = ctx w.
Proof.
  unfold lastModifiedValidation.
  destruct (cv_modifiedSince cv) as [since|]; [|reflexivity].
  destruct (Js.truthy since); [|reflexivity].
  unfold bind, header_get, bind, getCtx, ret.
  destruct (header (ctx w) !! "last-modified") as [lm|]; [|reflexivity].
  destruct (Js.truthy lm); [|reflexivity].
  unfold parseDate, bind, record, ret. cbn [ctx calls].
  destruct (dateParse lm) as [t1|], (dateParse since) as [t2|]; try reflexivity.
  destruct (t1 <=? t2); [discriminate | reflexivity].
Qed.

(** Whenever the date branch answers [NotModified] it went through
    [sendNotModified]. *)
Lemma lastModified_notModified (cv : ClientValidation) (w : World) :
  fst (lastModifiedValidation dateParse cv w) = NotModified ->
  ctx (snd (lastModifiedValidation dateParse cv w)) = rewrite304 (ctx w).
Proof.
  unfold lastModifiedValidation.
  destruct (cv_modifiedSince cv) as [since|]; [|discriminate].
  destruct (Js.truthy since); [|discriminate].
  unfold bind, header_get, bind, getCtx, ret.
  destruct (header (ctx w) !! "last-modified") as [lm|]; [|discriminate].
  destruct (Js.truthy lm); [|discriminate].
  unfold parseDate, bind, record, ret. cbn [ctx calls].
  destruct (dateParse lm) as [t1|], (dateParse since) as [t2|]; try discriminate.
  destruct (t1 <=? t2); [reflexivity | discriminate].
Qed.

Lemma parsed_nonempty (s : string) (t : Z) :
  dateParse s = Some t -> s <> EmptyString.
Proof. intros H ->. congruence. Qed.

(** C2. When the request supplied an If-None-Match value (a non-empty
    one, as line 49 tests it) and the comparator matches it against the fingerprint just generated, the
    outcome is [NotModified] at once.  The resulting world is fixed by
    the context and the fingerprint alone: it is the same for every date
    parser, every If-Modified-Since value and every Last-Modified header,
    and the only call recorded is the generation of the fingerprint, so
    no date was parsed. *)
Theorem etag_match_short_circuits
    (self : SettingsChannel) (cv : ClientValidation) (w : World) (value : string) :
  cv_etag cv = Some value ->
  Js.truthy value = true ->
  anyETagMatches (map Js.trim (Js.split comma value)) (fingerprint self w) = true ->
  handle self cv w
  = (NotModified,
     {| ctx := rewrite304 (attachETag (fingerprint self w) (ctx w));
        calls := calls w ++ [generated self w] |})
  /\ forall dateString,
       In (CallNewDate dateString) (calls (snd (handle self cv w))) ->
       In (CallNewDate dateString) (calls w).
Proof.
  intros Hv Hne Hm.
  assert (E : etagValidation cv (fingerprint self w) = true).
  { unfold etagValidation. now rewrite Hv, Hne. }
  rewrite handle_run. cbv zeta. rewrite E. cbn [ctx calls snd].
  split; [reflexivity|].
  intros dateString Hin. apply in_app_or in Hin as [Hin | [Hin | []]];
    [assumption | discriminate].
Qed.

Lemma etag_mismatch (cv : ClientValidation) (serverETag value : string) :
  cv_etag cv = Some value ->
  anyETagMatches (map Js.trim (Js.split comma value)) serverETag = false ->
  etagValidation cv serverETag = false.
Proof.
  intros Hv Hm. unfold etagValidation. rewrite Hv, Hm.
  destruct (Js.truthy value); reflexivity.
Qed.

(** The run when the ETag branch did not match and both dates parse. *)
Lemma handle_dates (self : SettingsChannel) (cv : ClientValidation) (w : World)
    (since lm : string) (t1 t2 : Z) :
  etagValidation cv (fingerprint self w) = false ->
  cv_modifiedSince cv = Some since ->
  header (ctx w) !! "last-modified" = Some lm ->
  dateParse lm = Some t1 ->
  dateParse since = Some t2 ->
  handle self cv w
  = let seen := calls w ++ [generated self w; CallNewDate lm; CallNewDate since] in
    if t1 <=? t2
    then (NotModified,
          {| ctx := rewrite304 (attachETag (fingerprint self w) (ctx w));
             calls := seen |})
    else (Continue,
          {| ctx := attachETag (fingerprint self w) (ctx w); calls := seen |}).
Proof.
  intros E Hs Hl H1 H2. rewrite handle_run. cbv zeta. rewrite E.
  rewrite (lastModified_run cv _ since lm Hs (parsed_nonempty _ _ H2)).
  - cbv zeta. cbn [ctx calls]. rewrite H1, H2.
    rewrite <- !app_assoc. cbn [app]. reflexivity.
  - cbn [ctx]. rewrite attachETag_other; [assumption | discriminate].
  - exact (parsed_nonempty _ _ H1).
Qed.

(** C3. An If-None-Match value that does not match the fingerprint does
    not end the validation: when the response carries Last-Modified, the
    request carried If-Modified-Since, both parse and the response date
    is not after the request date, the outcome is [NotModified] and the
    response is rewritten, in spite of the mismatch. *)
Theorem etag_mismatch_falls_through
    (self : SettingsChannel) (cv : ClientValidation) (w : World)
    (value since lm : string) (t1 t2 : Z) :
  cv_etag cv = Some value ->
  anyETagMatches (map Js.trim (Js.split comma value)) (fingerprint self w) = false ->
  cv_modifiedSince cv = Some since ->
  header (ctx w) !! "last-modified" = Some lm ->
  dateParse lm = Some t1 ->
  dateParse since = Some t2 ->
  t1 <= t2 ->
  fst (handle self cv w) = NotModified
  /\ ctx (snd (handle self cv w))
     = rewrite304 (attachETag (fingerprint self w) (ctx w)).
Proof.
  intros Hv Hm Hs Hl H1 H2 Hle.
  rewrite (handle_dates self cv w since lm t1 t2
             (etag_mismatch _ _ _ Hv Hm) Hs Hl H1 H2).
  cbv zeta. apply Z.leb_le in Hle. rewrite Hle. split; reflexivity.
Qed.

(** C4. Without an ETag match (no If-None-Match value, or one that does
    not match), with If-Modified-Since supplied, Last-Modified carried
    and both parsed, the outcome is [NotModified] exactly when the
    Last-Modified time is at most the If-Modified-Since time, equality
    included, and [Continue] when it is later. *)
Theorem last_modified_decides
    (self : SettingsChannel) (cv : ClientValidation) (w : World)
    (since lm : string) (t1 t2 : Z) :
  etagValidation cv (fingerprint self w) = false ->
  cv_modifiedSince cv = Some since ->
  header (ctx w) !! "last-modified" = Some lm ->
  dateParse lm = Some t1 ->
  dateParse since = Some t2 ->
  (fst (handle self cv w) = NotModified <-> t1 <= t2)
  /\ (t2 < t1 -> fst (handle self cv w) = Continue).
Proof.
  intros E Hs Hl H1 H2.
  rewrite (handle_dates self cv w since lm t1 t2 E Hs Hl H1 H2). cbv zeta.
  destruct (t1 <=? t2) eqn:Hle; cbn [fst].
  - apply Z.leb_le in Hle. split; [tauto | lia].
  - apply Z.leb_gt in Hle. split; [|reflexivity].
    split; [discriminate | lia].
Qed.

(** The date branch with an unparsable value on either side. *)
Lemma lastModified_unparsable (cv : ClientValidation) (w : World) :
  (exists since, cv_modifiedSince cv = Some since /\ dateParse since = None)
  \/ (exists lm, header (ctx w) !! "last-modified" = Some lm
                 /\ dateParse lm = None) ->
  fst (lastModifiedValidation dateParse cv w) = Continue.
Proof.
  intros H. unfold lastModifiedValidation.
  destruct (cv_modifiedSince cv) as [since|]; [|reflexivity].
  destruct (Js.truthy since); [|reflexivity].
  unfold bind, header_get, bind, getCtx, ret.
  destruct (header (ctx w) !! "last-modified") as [lm|]; [|reflexivity].
  destruct (Js.truthy lm); [|reflexivity].
  unfold parseDate, bind, record, ret. cbn [ctx calls].
  destruct (dateParse lm) as [t1|] eqn:E1, (dateParse since) as [t2|] eqn:E2;
    try reflexivity.
  exfalso. destruct H as [(x & [= <-] & Hx) | (x & [= <-] & Hx)]; congruence.
Qed.

(** C5, amended. An If-Modified-Since or Last-Modified value that does
    not parse never counts as a match and the run still returns: the
    outcome is the one of the ETag check alone, [NotModified] when the
    If-None-Match value matched the fingerprint and [Continue] otherwise,
    and in the latter case the response only gained its ETag header. *)
Theorem unparsable_date_never_matches
    (self : SettingsChannel) (cv : ClientValidation) (w : World) :
  (exists since, cv_modifiedSince cv = Some since /\ dateParse since = None)
  \/ (exists lm, header (ctx w) !! "last-modified" = Some lm
                 /\ dateParse lm = None) ->
  fst (handle self cv w)
  = (if etagValidation cv (fingerprint self w) then NotModified else Continue)
  /\ (etagValidation cv (fingerprint self w) = false ->
      ctx (snd (handle self cv w)) = attachETag (fingerprint self w) (ctx w)).
Proof.
  intros H. rewrite handle_run. cbv zeta.
  destruct (etagValidation cv (fingerprint self w)) eqn:E.
  - split; [reflexivity | discriminate].
  - set (w1 := {| ctx := attachETag (fingerprint self w) (ctx w);
                  calls := calls w ++ [generated self w] |}).
    assert (C : fst (lastModifiedValidation dateParse cv w1) = Continue).
    { apply lastModified_unparsable.
      destruct H as [H | (lm & Hl & Hp)]; [left; exact H | right].
      exists lm. split; [|exact Hp].
      subst w1. cbn [ctx]. rewrite attachETag_other; [assumption | discriminate]. }
    split; [exact C|]. intros _.
    rewrite (lastModified_continue cv w1 C). reflexivity.
Qed.

(** Every [NotModified] outcome of the validation went through
    [sendNotModified], after the fingerprint was attached. *)
Lemma handle_notModified (self : SettingsChannel) (cv : ClientValidation) (w : World) :
  fst (handle self cv w) = NotModified ->
  ctx (snd (handle self cv w))
  = rewrite304 (attachETag (fingerprint self w) (ctx w)).
Proof.
  rewrite handle_run. cbv zeta.
  destruct (etagValidation cv (fingerprint self w)); [reflexivity|].
  intros H. now rewrite (lastModified_notModified _ _ H).
Qed.

Lemma step_notModified (self : SettingsChannel) (cv : ClientValidation) (w : World) :
  fst (step self cv w) = NotModified ->
  ctx (snd (step self cv w))
  = rewrite304 (attachETag (fingerprint self w) (ctx w)).
Proof.
  destruct (shouldProcessValidation (ctx w)) eqn:E.
  - rewrite (step_runs self cv w E). apply handle_notModified.
  - rewrite (step_skips self cv w E). discriminate.
Qed.

(** C8. Whenever the outcome of the validation is [NotModified], the
    response has status 304, its body is cleared, and it carries neither a
    Content-Type nor a Content-Length header. *)
Theorem not_modified_rewrites_response
    (self : SettingsChannel) (cv : ClientValidation) (w : World) :
  fst (step self cv w) = NotModified ->
  status (ctx (snd (step self cv w))) = 304
  /\ body (ctx (snd (step self cv w))) = None
  /\ header (ctx (snd (step self cv w))) !! "content-type" = None
  /\ header (ctx (snd (step self cv w))) !! "content-length" = None.
Proof.
  intros H. rewrite (step_notModified self cv w H). cbn.
  repeat split.
  - rewrite lookup_delete_ne by discriminate. apply lookup_delete_eq.
  - apply lookup_delete_eq.
Qed.

(** [sendNotModified] on its own: everything but the status, the body
    and the two entity headers is kept, and no call is made. *)
Lemma sendNotModified_frame (w : World) (name : string) :
  name <> "content-type" -> name <> "content-length" ->
  header (ctx (snd (sendNotModified w))) !! name = header (ctx w) !! name.
Proof.
  intros H1 H2. rewrite sendNotModified_run. cbn.
  rewrite !lookup_delete_ne by congruence. reflexivity.
Qed.

(** C10. After a [NotModified] outcome the ETag header attached at the
    start of the validation is still on the 304 response, with the
    fingerprint as its value, and every header other than ETag,
    Content-Type and Content-Length has the value it had before the
    validation.  The rewrite itself, [sendNotModified], keeps every header
    other than Content-Type and Content-Length, the method and the
    subdomains, and records no call. *)
Theorem not_modified_keeps_other_headers
    (self : SettingsChannel) (cv : ClientValidation) (w : World) :
  fst (step self cv w) = NotModified ->
  header (ctx (snd (step self cv w))) !! "etag" = Some (fingerprint self w)
  /\ (forall name, name <> "etag" -> name <> "content-type" ->
                   name <> "content-length" ->
        header (ctx (snd (step self cv w))) !! name = header (ctx w) !! name)
  /\ (forall w0 name, name <> "content-type" -> name <> "content-length" ->
        header (ctx (snd (sendNotModified w0))) !! name = header (ctx w0) !! name)
  /\ (forall w0, method (ctx (snd (sendNotModified w0))) = method (ctx w0)
                 /\ subdomains (ctx (snd (sendNotModified w0))) = subdomains (ctx w0)
                 /\ calls (snd (sendNotModified w0)) = calls w0).
Proof.
  intros H. rewrite (step_notModified self cv w H).
  split; [|split; [|split]].
  - cbn. rewrite !lookup_delete_ne by discriminate. apply lookup_insert_eq.
  - intros name H1 H2 H3. cbn.
    rewrite !lookup_delete_ne by congruence. apply lookup_insert_ne. congruence.
  - intros w0 name. apply sendNotModified_frame.
  - intros w0. rewrite sendNotModified_run. repeat split.
Qed.

(** Two validations under one configuration attach the same ETag header
    to responses with the same body, whatever else differs. *)
Lemma handle_same_body_same_etag
    (self : SettingsChannel) (cv1 cv2 : ClientValidation) (w1 w2 : World) :
  body (ctx w1) = body (ctx w2) ->
  header (ctx (snd (handle self cv1 w1))) !! "etag"
  = header (ctx (snd (handle self cv2 w2))) !! "etag".
Proof.
  intros Hb.
  assert (G : forall cv w,
             header (ctx (snd (handle self cv w))) !! "etag"
             = Some (fingerprint self w)).
  { intros cv w. destruct (fst (handle self cv w)) eqn:E.
    - rewrite handle_run in *. cbv zeta in *.
      destruct (etagValidation cv (fingerprint self w)); [discriminate|].
      rewrite (lastModified_continue _ _ E). cbn. apply lookup_insert_eq.
    - rewrite (handle_notModified self cv w E). cbn.
      rewrite !lookup_delete_ne by discriminate. apply lookup_insert_eq. }
  rewrite !G, Hb. reflexivity.
Qed.

(** Under an eligible status the outcome can be read off the response:
    it is [NotModified] exactly when the status has become 304. *)
Lemma outcome_is_status (self : SettingsChannel) (cv : ClientValidation) (w : World) :
  status (ctx w) <> 304 ->
  fst (step self cv w) = NotModified
  <-> status (ctx (snd (step self cv w))) = 304.
Proof.
  intros Hs. split; [intros H; now rewrite (step_notModified self cv w H)|].
  destruct (fst (step self cv w)) eqn:E; [|reflexivity].
  intros H. exfalso. apply Hs. rewrite <- H.
  destruct (shouldProcessValidation (ctx w)) eqn:S.
  - rewrite (step_runs self cv w S) in *.
    rewrite handle_run in *. cbv zeta in *.
    destruct (etagValidation cv (fingerprint self w)); [discriminate|].
    now rewrite (lastModified_continue _ _ E).
  - now rewrite (step_skips self cv w S).
Qed.

(** The middleware unfolded: the validation step runs on the world
    [next()] leaves, with the validators read before [next()]. *)
Lemma createMiddleware_run
    (getSubdomains : SettingsChannel -> HttpContext -> list string)
    (self : SettingsChannel) (next : M unit) (w : World) :
  let c0 := match poweredBy (settings self) with
            | Some value =>
                if Js.truthy value
                then with_header (<["x-powered-by" := value]> (header (ctx w))) (ctx w)
                else ctx w
            | None => ctx w
            end in
  let c1 := with_subdomains (getSubdomains self c0) c0 in
  createMiddleware digest dateParse getSubdomains self next w
  = step self
      {| cv_etag := header c1 !! "if-none-match";
         cv_modifiedSince := header c1 !! "if-modified-since" |}
      (snd (next {| ctx := c1; calls := calls w |})).
Proof.
  unfold createMiddleware.
  destruct (poweredBy (settings self)) as [value|];
    [destruct (Js.truthy value)|];
    unfold bind, ret, getCtx, header_set, modifyCtx, header_get, bind, getCtx, ret;
    cbn [ctx calls header with_subdomains];
    destruct (next _) as [[] w']; reflexivity.
Qed.

End Validation.

(** ** The comparators *)

Lemma includes_app (c : ascii) (s t : string) :
  Js.includes c (s +:+ t) = Js.includes c s || Js.includes c t.
Proof.
  induction s as [|d s IH]; [reflexivity|].
  rewrite append_cons. cbn [Js.includes]. rewrite IH. apply orb_assoc.
Qed.

Lemma includes_comma_strongTag (x : string) :
  Js.includes comma (strongTag x) = Js.includes comma x.
Proof.
  unfold strongTag. cbn [Js.includes]. rewrite includes_app.
  cbn. now rewrite orb_false_r.
Qed.

(** X9. The public comparator matches a strong and a weak tag of one
    identifier in both directions when the marker is an upper-case W and
    the identifier has no comma. *)
Lemma compareETags_weak_strong (x : string) :
  Js.includes comma x = false ->
  compareETags (strongTag x) (weakTag x) = Some true
  /\ compareETags (weakTag x) (strongTag x) = Some true.
Proof.
  intros Hx.
  split; rewrite (proj2 (compareETags_total 0 _ _)); f_equal;
    unfold compareETags_value.
  - change (Js.truthy (strongTag x)) with true.
    change (Js.truthy (weakTag x)) with true.
    change (String.eqb (strongTag x) "*") with false. cbn [negb orb].
    rewrite includes_comma_strongTag, Hx.
    rewrite normalize_strongTag, normalize_weakTag. apply String.eqb_refl.
  - change (Js.truthy (strongTag x)) with true.
    change (Js.truthy (weakTag x)) with true.
    change (String.eqb (weakTag x) "*") with false. cbn [negb orb].
    change (Js.includes comma (weakTag x)) with (Js.includes comma (strongTag x)).
    rewrite includes_comma_strongTag, Hx.
    rewrite normalize_strongTag, normalize_weakTag. apply String.eqb_refl.
Qed.

(** An identifier with a comma is cut in two by the public comparator,
    and neither half matches. *)
Lemma compareETags_comma_identifier :
  compareETags (strongTag "a,b") (weakTag "a,b") = Some false.
Proof. reflexivity. Qed.

(** C6. The two comparators do not normalise alike.  On the client tag
    w/ followed by the quoted identifier x, against the strong server tag
    of x, [normalizeETag] removes the lower-case marker and the pipeline's
    [anyETagMatches] matches, while [normalize] keeps it and the public
    [compareETags] answers false. *)
Theorem compareETags_marker_case_sensitive :
  normalizeETag ("w/" +:+ strongTag "x") = "x"
  /\ normalize ("w/" +:+ strongTag "x") = "w/x"
  /\ anyETagMatches ["w/" +:+ strongTag "x"] (strongTag "x") = true
  /\ compareETags ("w/" +:+ strongTag "x") (strongTag "x") = Some false.
Proof. repeat split. Qed.


(** ** Scenarios *)

Lemma ineligible_response_untouched_scenario :
  validationStep Sample.plainDigest Sample.imfFixdate Sample.defaults
    (Sample.validators (Some (strongTag "abc")) None)
    (Sample.start (with_status 404 Sample.page))
  = (Continue, Sample.start (with_status 404 Sample.page)).
Proof.
  apply (ineligible_response_untouched Sample.plainDigest Sample.imfFixdate).
  right; right; left. simpl. lia.
Defined.

Lemma etag_match_short_circuits_scenario :
  handleCacheValidation Sample.plainDigest Sample.imfFixdate Sample.defaults
    (Sample.validators (Some (strongTag "abc")) (Some "not-a-date"))
    (Sample.start Sample.page)
  = (NotModified,
     {| ctx := rewrite304 (attachETag (strongTag "abc") Sample.page);
        calls := [CallGenerateETag (Some "abc") "sha256" strong] |})
  /\ forall dateString,
       In (CallNewDate dateString)
          (calls (snd (handleCacheValidation Sample.plainDigest Sample.imfFixdate
                         Sample.defaults
                         (Sample.validators (Some (strongTag "abc"))
                                            (Some "not-a-date"))
                         (Sample.start Sample.page)))) ->
       In (CallNewDate dateString) [].
Proof.
  apply (etag_match_short_circuits Sample.plainDigest Sample.imfFixdate
           Sample.defaults
           (Sample.validators (Some (strongTag "abc")) (Some "not-a-date"))
           (Sample.start Sample.page) (strongTag "abc"));
    reflexivity.
Defined.

Lemma etag_mismatch_falls_through_scenario :
  fst (handleCacheValidation Sample.plainDigest Sample.imfFixdate Sample.defaults
         (Sample.validators (Some (strongTag "old")) (Some Sample.newYear2020))
         (Sample.start Sample.page)) = NotModified
  /\ ctx (snd (handleCacheValidation Sample.plainDigest Sample.imfFixdate
                 Sample.defaults
                 (Sample.validators (Some (strongTag "old"))
                                    (Some Sample.newYear2020))
                 (Sample.start Sample.page)))
     = rewrite304 (attachETag (strongTag "abc") Sample.page).
Proof.
  apply (etag_mismatch_falls_through Sample.plainDigest Sample.imfFixdate
           eq_refl Sample.defaults
           (Sample.validators (Some (strongTag "old")) (Some Sample.newYear2020))
           (Sample.start Sample.page) (strongTag "old") Sample.newYear2020
           "Tue, 31 Dec 2019 00:00:00 GMT" 1577750400000 1577836800000);
    try reflexivity.
  lia.
Defined.

Lemma last_modified_decides_scenario :
  (fst (handleCacheValidation Sample.plainDigest Sample.imfFixdate Sample.defaults
          (Sample.validators None (Some "Tue, 31 Dec 2019 00:00:00 GMT"))
          (Sample.start Sample.page)) = NotModified
   <-> 1577750400000 <= 1577750400000)
  /\ (1577750400000 < 1577750400000 ->
      fst (handleCacheValidation Sample.plainDigest Sample.imfFixdate
             Sample.defaults
             (Sample.validators None (Some "Tue, 31 Dec 2019 00:00:00 GMT"))
             (Sample.start Sample.page)) = Continue).
Proof.
  apply (last_modified_decides Sample.plainDigest Sample.imfFixdate
           eq_refl Sample.defaults
           (Sample.validators None (Some "Tue, 31 Dec 2019 00:00:00 GMT"))
           (Sample.start Sample.page)
           "Tue, 31 Dec 2019 00:00:00 GMT" "Tue, 31 Dec 2019 00:00:00 GMT");
    reflexivity.
Defined.

(** C5, as stated, fails: with an If-None-Match value that matches the
    fingerprint, an If-Modified-Since value that does not parse leaves the
    outcome [NotModified], not [Continue]. *)
Lemma unparsable_date_with_matching_etag :
  Sample.imfFixdate "not-a-date" = None
  /\ fst (handleCacheValidation Sample.plainDigest Sample.imfFixdate
            Sample.defaults
            (Sample.validators (Some (strongTag "abc")) (Some "not-a-date"))
            (Sample.start Sample.page)) <> Continue.
Proof. split; [reflexivity|]. vm_compute. discriminate. Qed.

Lemma unparsable_date_never_matches_scenario :
  fst (handleCacheValidation Sample.plainDigest Sample.imfFixdate Sample.defaults
         (Sample.validators None (Some "not-a-date"))
         (Sample.start Sample.page))
  = (if etagValidation (Sample.validators None (Some "not-a-date"))
          (strongTag "abc")
     then NotModified else Continue)
  /\ (etagValidation (Sample.validators None (Some "not-a-date"))
        (strongTag "abc") = false ->
      ctx (snd (handleCacheValidation Sample.plainDigest Sample.imfFixdate
                  Sample.defaults
                  (Sample.validators None (Some "not-a-date"))
                  (Sample.start Sample.page)))
      = attachETag (strongTag "abc") Sample.page).
Proof.
  apply (unparsable_date_never_matches Sample.plainDigest Sample.imfFixdate
           Sample.defaults (Sample.validators None (Some "not-a-date"))
           (Sample.start Sample.page)).
  left. exists "not-a-date". split; reflexivity.
Defined.

Lemma not_modified_rewrites_response_scenario :
  status (ctx (snd (validationStep Sample.plainDigest Sample.imfFixdate
                      Sample.defaults
                      (Sample.validators (Some (strongTag "abc")) None)
                      (Sample.start Sample.page)))) = 304
  /\ body (ctx (snd (validationStep Sample.plainDigest Sample.imfFixdate
                       Sample.defaults
                       (Sample.validators (Some (strongTag "abc")) None)
                       (Sample.start Sample.page)))) = None
  /\ header (ctx (snd (validationStep Sample.plainDigest Sample.imfFixdate
                         Sample.defaults
                         (Sample.validators (Some (strongTag "abc")) None)
                         (Sample.start Sample.page)))) !! "content-type" = None
  /\ header (ctx (snd (validationStep Sample.plainDigest Sample.imfFixdate
                         Sample.defaults
                         (Sample.validators (Some (strongTag "abc")) None)
                         (Sample.start Sample.page)))) !! "content-length" = None.
Proof.
  apply (not_modified_rewrites_response Sample.plainDigest Sample.imfFixdate
           Sample.defaults (Sample.validators (Some (strongTag "abc")) None)
           (Sample.start Sample.page)).
  vm_compute. reflexivity.
Defined.

Lemma not_modified_keeps_other_headers_scenario :
  header (ctx (snd (validationStep Sample.plainDigest Sample.imfFixdate
                      Sample.defaults
                      (Sample.validators None (Some Sample.newYear2020))
                      (Sample.start Sample.page)))) !! "etag"
  = Some (strongTag "abc")
  /\ header (ctx (snd (validationStep Sample.plainDigest Sample.imfFixdate
                         Sample.defaults
                         (Sample.validators None (Some Sample.newYear2020))
                         (Sample.start Sample.page)))) !! "x-request-id"
     = Some "7".
Proof.
  destruct (not_modified_keeps_other_headers Sample.plainDigest
              Sample.imfFixdate Sample.defaults
              (Sample.validators None (Some Sample.newYear2020))
              (Sample.start Sample.page)) as (Hetag & Hother & _).
  - vm_compute. reflexivity.
  - split; [exact Hetag|].
    rewrite (Hother "x-request-id"); [reflexivity | discriminate ..].
Defined.

(** ** The scenarios of the specification *)

Example list_form_matches :
  etagValidation
    (Sample.validators (Some (strongTag "a" +:+ ", " +:+ strongTag "b")) None)
    (strongTag "b") = true
  /\ etagValidation
       (Sample.validators (Some (strongTag "a" +:+ ", " +:+ strongTag "b")) None)
       (strongTag "c") = false.
Proof. split; reflexivity. Qed.

Example resource_unchanged_since :
  fst (validationStep Sample.plainDigest Sample.imfFixdate Sample.defaults
         (Sample.validators None (Some Sample.newYear2020))
         (Sample.start Sample.page)) = NotModified.
Proof. vm_compute. reflexivity. Qed.

Example resource_newer_than_client_date :
  validationStep Sample.plainDigest Sample.imfFixdate Sample.defaults
    (Sample.validators None (Some "Mon, 30 Dec 2019 00:00:00 GMT"))
    (Sample.start Sample.page)
  = (Continue,
     {| ctx := attachETag (strongTag "abc") Sample.page;
        calls := [CallGenerateETag (Some "abc") "sha256" strong;
                  CallNewDate "Tue, 31 Dec 2019 00:00:00 GMT";
                  CallNewDate "Mon, 30 Dec 2019 00:00:00 GMT"] |}).
Proof. vm_compute. reflexivity. Qed.

Example unparsable_client_date :
  fst (validationStep Sample.plainDigest Sample.imfFixdate Sample.defaults
         (Sample.validators None (Some "not-a-date"))
         (Sample.start Sample.page)) = Continue.
Proof. vm_compute. reflexivity. Qed.

(** The whole middleware: the validators are the ones the request had
    before the handler ran, and the weak client tag matches the strong
    fingerprint. *)
Example middleware_not_modified :
  fst (createMiddleware Sample.plainDigest Sample.imfFixdate Sample.noSubdomains
         Sample.defaults Sample.handler (Sample.start Sample.request))
  = NotModified
  /\ status (ctx (snd (createMiddleware Sample.plainDigest Sample.imfFixdate
                         Sample.noSubdomains Sample.defaults Sample.handler
                         (Sample.start Sample.request)))) = 304.
Proof. vm_compute. split; reflexivity. Qed.


(** * Further properties of the channel *)

(** ** Splitting and joining *)

Lemma split_not_nil (sep : ascii) (s : string) : Js.split sep s <> [].
Proof.
  destruct s as [|c s]; cbn [Js.split]; [discriminate|].
  destruct (Ascii.eqb c sep); [discriminate|].
  destruct (Js.split sep s); discriminate.
Qed.

Lemma split_without_sep (sep : ascii) (s : string) :
  Js.includes sep s = false -> Js.split sep s = [s].
Proof.
  induction s as [|c s IH]; [reflexivity|]. cbn [Js.includes Js.split].
  intros H. apply orb_false_iff in H as [Hc Hs].
  now rewrite Hc, (IH Hs).
Qed.

Lemma split_app_sep (sep : ascii) (piece rest : string) :
  Js.includes sep piece = false ->
  Js.split sep (piece +:+ String sep rest) = piece :: Js.split sep rest.
Proof.
  induction piece as [|c piece IH].
  - intros _. change (EmptyString +:+ String sep rest) with (String sep rest).
    cbn [Js.split]. now rewrite Ascii.eqb_refl.
  - cbn [Js.includes]. intros H. apply orb_false_iff in H as [Hc Hs].
    rewrite append_cons. cbn [Js.split]. now rewrite Hc, (IH Hs).
Qed.

Lemma join_split (sep : ascii) (s : string) : join sep (Js.split sep s) = s.
Proof.
  induction s as [|c s IH]; [reflexivity|]. cbn [Js.split].
  destruct (Ascii.eqb c sep) eqn:E.
  - apply Ascii.eqb_eq in E as ->.
    pose proof (split_not_nil sep s) as Hne.
    destruct (Js.split sep s) as [|piece pieces]; [contradiction|].
    change (join sep (EmptyString :: piece :: pieces))
      with (String sep (join sep (piece :: pieces))).
    now rewrite IH.
  - pose proof (split_not_nil sep s) as Hne.
    destruct (Js.split sep s) as [|piece pieces]; [contradiction|].
    destruct pieces as [|piece' pieces].
    + cbn [join] in *. now rewrite IH.
    + change (join sep (String c piece :: piece' :: pieces))
        with (String c (join sep (piece :: piece' :: pieces))).
      now rewrite IH.
Qed.

(** A character that is not in a string is in none of its pieces. *)
Lemma split_pieces_without (c sep : ascii) (s : string) :
  Js.includes c s = false ->
  Forall (fun piece => Js.includes c piece = false) (Js.split sep s).
Proof.
  induction s as [|d s IH]; cbn [Js.split Js.includes].
  - intros _. repeat constructor.
  - intros H. apply orb_false_iff in H as [Hd Hs]. specialize (IH Hs).
    destruct (Ascii.eqb d sep).
    + constructor; [reflexivity | exact IH].
    + destruct (Js.split sep s) as [|piece pieces].
      * repeat constructor. cbn. now rewrite Hd.
      * inversion IH; subst. constructor; [|assumption].
        cbn. now rewrite Hd.
Qed.

Lemma hostname_no_colon (host : string) :
  Js.includes colon (hd EmptyString (Js.split colon host)) = false.
Proof.
  pose proof (split_pieces_no_sep colon host) as H.
  destruct (Js.split colon host); [reflexivity|]. now inversion H.
Qed.

(** ** IP addresses and subdomains *)

Lemma all_chars_excludes (p : ascii -> bool) (c : ascii) (s : string) :
  p c = false -> all_chars p s = true -> Js.includes c s = false.
Proof.
  intros Hc. induction s as [|d s IH]; [reflexivity|]. cbn.
  intros H. apply andb_true_iff in H as [Hd Hs]. rewrite (IH Hs), orb_false_r.
  destruct (Ascii.eqb d c) eqn:E; [|reflexivity].
  apply Ascii.eqb_eq in E as ->. congruence.
Qed.

Lemma digitGroup_excludes (c : ascii) (s : string) :
  isDigit c = false -> digitGroup s = true -> Js.includes c s = false.
Proof.
  intros Hc H. unfold digitGroup in H. apply andb_true_iff in H as [_ H].
  exact (all_chars_excludes _ _ _ Hc H).
Qed.

Lemma hexGroup_excludes (c : ascii) (s : string) :
  isHexDigit c = false -> hexGroup s = true -> Js.includes c s = false.
Proof.
  intros Hc H. unfold hexGroup in H. apply andb_true_iff in H as [_ H].
  exact (all_chars_excludes _ _ _ Hc H).
Qed.

Lemma includes_join (c sep : ascii) (pieces : list string) :
  Ascii.eqb sep c = false ->
  Js.includes c (join sep pieces) = existsb (Js.includes c) pieces.
Proof.
  intros Hne. induction pieces as [|piece pieces IH]; [reflexivity|].
  destruct pieces as [|piece' pieces].
  - cbn. now rewrite orb_false_r.
  - change (join sep (piece :: piece' :: pieces))
      with (piece +:+ String sep (join sep (piece' :: pieces))).
    rewrite includes_app. cbn [Js.includes existsb] in *. now rewrite Hne, IH.
Qed.

(** A string without the separator is no address of either family. *)
Lemma single_piece_not_ip (s : string) :
  Js.includes dot s = false -> Js.includes colon s = false ->
  _isIPAddress s = false.
Proof.
  intros Hd Hc. unfold _isIPAddress, ipv4Regex, ipv6Regex.
  now rewrite (split_without_sep _ _ Hd), (split_without_sep _ _ Hc).
Qed.

Lemma slice_from_start {A : Type} (l : list A) (stop : Z) :
  JsArray.slice l 0 stop
  = firstn (Z.to_nat (if stop <? 0
                      then Z.max (Z.of_nat (length l) + stop) 0
                      else Z.min stop (Z.of_nat (length l)))) l.
Proof.
  unfold JsArray.slice. change (0 <? 0) with false. cbv beta iota zeta.
  rewrite (Z.min_l 0 (Z.of_nat (length l))) by lia.
  change (Z.to_nat 0) with 0%nat.
  cbn [skipn]. now rewrite Z.sub_0_r.
Qed.

Lemma getSubdomains_run (offset : Z) (host : string) :
  _isIPAddress (hd EmptyString (Js.split colon host)) = false ->
  _getSubdomains offset (Some host)
  = rev (JsArray.slice (Js.split dot (hd EmptyString (Js.split colon host))) 0
           (Z.of_nat (length (Js.split dot (hd EmptyString (Js.split colon host))))
            - offset)).
Proof. intros H. unfold _getSubdomains. now rewrite H. Qed.

(** X1. With an offset between zero and the number of dot-separated
    segments of the host name (the host up to its first colon), and a
    host name that is no IP address, the subdomains are the segments
    before the last [offset] ones, innermost first: reversing them and
    putting the dropped segments back gives the segments again. *)
Theorem subdomains_are_leading_segments (offset : Z) (host : string) :
  let hostname := hd EmptyString (Js.split colon host) in
  let segments := Js.split dot hostname in
  _isIPAddress hostname = false ->
  0 <= offset <= Z.of_nat (length segments) ->
  rev (_getSubdomains offset (Some host))
    ++ skipn (length segments - Z.to_nat offset) segments = segments
  /\ length (_getSubdomains offset (Some host))
     = (length segments - Z.to_nat offset)%nat.
Proof.
  intros hostname segments Hip Hoff.
  rewrite (getSubdomains_run offset host Hip). fold hostname. fold segments.
  rewrite slice_from_start.
  destruct (Z.ltb_spec (Z.of_nat (length segments) - offset) 0) as [Hlt | Hge];
    [lia|].
  rewrite Z.min_l by lia.
  replace (Z.to_nat (Z.of_nat (length segments) - offset))
    with (length segments - Z.to_nat offset)%nat by lia.
  rewrite rev_involutive, firstn_skipn, length_rev, length_firstn.
  split; [reflexivity | lia].
Qed.

Lemma subdomains_are_leading_segments_scenario :
  rev (_getSubdomains 2 (Some "tobi.ferrets.example.com:3000"))
    ++ skipn (4 - Z.to_nat 2) ["tobi"; "ferrets"; "example"; "com"]
  = ["tobi"; "ferrets"; "example"; "com"]
  /\ length (_getSubdomains 2 (Some "tobi.ferrets.example.com:3000"))
     = (4 - Z.to_nat 2)%nat.
Proof.
  apply (subdomains_are_leading_segments 2 "tobi.ferrets.example.com:3000").
  - reflexivity.
  - simpl. lia.
Defined.

(** X2. With an offset larger than the number [n] of segments the end
    index of the slice is negative and counts from the end: the
    subdomains are the first [2n - offset] segments reversed, so the list
    is not empty as long as the offset stays below [2n], and empty from
    there on. *)
Theorem subdomains_offset_beyond_segments (offset : Z) (host : string) :
  let hostname := hd EmptyString (Js.split colon host) in
  let segments := Js.split dot hostname in
  _isIPAddress hostname = false ->
  Z.of_nat (length segments) < offset ->
  _getSubdomains offset (Some host)
  = rev (firstn (Z.to_nat (2 * Z.of_nat (length segments) - offset)) segments)
  /\ (offset < 2 * Z.of_nat (length segments) ->
      _getSubdomains offset (Some host) <> [])
  /\ (2 * Z.of_nat (length segments) <= offset ->
      _getSubdomains offset (Some host) = []).
Proof.
  intros hostname segments Hip Hoff.
  rewrite (getSubdomains_run offset host Hip). fold hostname. fold segments.
  rewrite slice_from_start.
  destruct (Z.ltb_spec (Z.of_nat (length segments) - offset) 0) as [Hlt | Hge];
    [|lia].
  replace (Z.to_nat (Z.max (Z.of_nat (length segments)
                            + (Z.of_nat (length segments) - offset)) 0))
    with (Z.to_nat (2 * Z.of_nat (length segments) - offset)) by lia.
  split; [reflexivity|]. split.
  - intros Hlt2 Hnil. apply (f_equal (@length string)) in Hnil.
    rewrite length_rev, length_firstn in Hnil. cbn [length] in Hnil. lia.
  - intros Hge2.
    replace (Z.to_nat (2 * Z.of_nat (length segments) - offset)) with 0%nat by lia.
    reflexivity.
Qed.

Lemma subdomains_offset_beyond_segments_scenario :
  _getSubdomains 4 (Some "a.b.c")
  = rev (firstn (Z.to_nat (2 * Z.of_nat 3 - 4)) ["a"; "b"; "c"])
  /\ (4 < 2 * Z.of_nat 3 -> _getSubdomains 4 (Some "a.b.c") <> [])
  /\ (2 * Z.of_nat 3 <= 4 -> _getSubdomains 4 (Some "a.b.c") = []).
Proof.
  apply (subdomains_offset_beyond_segments 4 "a.b.c").
  - reflexivity.
  - simpl. lia.
Defined.

(** X3. A port does not change the subdomains: for a host without a
    colon, appending a colon and anything after it gives the same list. *)
Theorem subdomains_ignore_port (offset : Z) (host port : string) :
  Js.includes colon host = false ->
  _getSubdomains offset (Some (host +:+ String colon port))
  = _getSubdomains offset (Some host).
Proof.
  intros H. unfold _getSubdomains.
  now rewrite (split_app_sep colon host port H), (split_without_sep colon host H).
Qed.

Lemma subdomains_ignore_port_scenario :
  _getSubdomains 2 (Some ("api.v2.example.com" +:+ String colon "8080"))
  = _getSubdomains 2 (Some "api.v2.example.com").
Proof.
  apply (subdomains_ignore_port 2 "api.v2.example.com" "8080"). reflexivity.
Defined.

(** X4. No subdomain holds a dot or a colon, whatever the host and the
    offset are. *)
Theorem subdomains_have_no_separator (offset : Z) (host : option string) :
  Forall (fun label => Js.includes dot label = false
                       /\ Js.includes colon label = false)
         (_getSubdomains offset host).
Proof.
  destruct host as [host|]; [|constructor]. unfold _getSubdomains.
  destruct (_isIPAddress _); [constructor|].
  apply Forall_rev. unfold JsArray.slice. apply Forall_take, Forall_drop.
  pose proof (split_pieces_no_sep dot (hd EmptyString (Js.split colon host))) as Hd.
  pose proof (split_pieces_without colon dot _ (hostname_no_colon host)) as Hc.
  induction Hd as [|piece pieces Hp _ IH]; [constructor|].
  inversion Hc; subst. constructor; [split; assumption | auto].
Qed.

Lemma ipv6_shape (host : string) :
  ipv6Regex host = true ->
  exists group rest,
    Js.split colon host = group :: rest /\ rest <> [] /\ hexGroup group = true.
Proof.
  unfold ipv6Regex. intros H. apply andb_true_iff in H as [Hlen Hall].
  destruct (Js.split colon host) as [|group [|g2 rest]]; try discriminate.
  exists group, (g2 :: rest). cbn in Hall.
  apply andb_true_iff in Hall as [Hg _]. now repeat split.
Qed.

(** X5. A full IPv6 address, which [_isIPAddress] accepts, is not
    treated as an address by [_getSubdomains]: the host is cut at its
    first colon before the test, so only the first group is looked at.
    That group comes back as a subdomain when the offset is zero or less,
    and the list is empty for every positive offset. *)
Theorem ipv6_host_is_cut_at_first_colon (offset : Z) (host : string) :
  ipv6Regex host = true ->
  _isIPAddress host = true
  /\ _isIPAddress (hd EmptyString (Js.split colon host)) = false
  /\ _getSubdomains offset (Some host)
     = (if offset <=? 0 then [hd EmptyString (Js.split colon host)] else []).
Proof.
  intros H6. destruct (ipv6_shape host H6) as (group & rest & Hs & Hrest & Hg).
  assert (Hcolon : Js.includes colon host = true).
  { destruct (Js.includes colon host) eqn:E; [reflexivity|].
    rewrite (split_without_sep _ _ E) in Hs. injection Hs as _ <-. contradiction. }
  assert (H4 : ipv4Regex host = false).
  { destruct (ipv4Regex host) eqn:E; [|reflexivity]. exfalso.
    unfold ipv4Regex in E. apply andb_true_iff in E as [_ Hall].
    rewrite <- (join_split dot host), includes_join in Hcolon by reflexivity.
    apply existsb_exists in Hcolon as (piece & Hin & Hp).
    rewrite forallb_forall in Hall.
    rewrite (digitGroup_excludes colon piece eq_refl (Hall piece Hin)) in Hp.
    discriminate. }
  assert (Hgd : Js.includes dot group = false)
    by exact (hexGroup_excludes dot group eq_refl Hg).
  assert (Hgc : Js.includes colon group = false)
    by exact (hexGroup_excludes colon group eq_refl Hg).
  split; [unfold _isIPAddress; now rewrite H4|].
  rewrite Hs. cbn [hd].
  split; [exact (single_piece_not_ip group Hgd Hgc)|].
  unfold _getSubdomains. rewrite Hs. cbn [hd].
  rewrite (single_piece_not_ip group Hgd Hgc), (split_without_sep dot group Hgd).
  rewrite slice_from_start. cbn [length].
  destruct (Z.leb_spec offset 0) as [Hle | Hgt].
  - destruct (Z.ltb_spec (Z.of_nat 1 - offset) 0); [lia|].
    replace (Z.to_nat (Z.min (Z.of_nat 1 - offset) (Z.of_nat 1))) with 1%nat by lia.
    reflexivity.
  - destruct (Z.ltb_spec (Z.of_nat 1 - offset) 0).
    + replace (Z.to_nat (Z.max (Z.of_nat 1 + (Z.of_nat 1 - offset)) 0))
        with 0%nat by lia.
      reflexivity.
    + replace (Z.to_nat (Z.min (Z.of_nat 1 - offset) (Z.of_nat 1)))
        with 0%nat by lia.
      reflexivity.
Qed.

Lemma ipv6_host_is_cut_at_first_colon_scenario :
  _isIPAddress "2001:db8:0:0:0:0:0:1" = true
  /\ _isIPAddress (hd EmptyString (Js.split colon "2001:db8:0:0:0:0:0:1")) = false
  /\ _getSubdomains 0 (Some "2001:db8:0:0:0:0:0:1")
     = (if 0 <=? 0
        then [hd EmptyString (Js.split colon "2001:db8:0:0:0:0:0:1")] else []).
Proof.
  apply (ipv6_host_is_cut_at_first_colon 0 "2001:db8:0:0:0:0:0:1"). reflexivity.
Defined.

Lemma decimal_facts (n : Z) :
  0 <= n < 1000 ->
  digitGroup (decimal n) = true
  /\ parseInt10 (decimal n) = Some n
  /\ Js.includes dot (decimal n) = false.
Proof.
  intros Hn.
  assert (T : forallb
                (fun k =>
                   let m := Z.of_nat k in
                   digitGroup (decimal m)
                   && match parseInt10 (decimal m) with
                      | Some v => v =? m
                      | None => false
                      end
                   && negb (Js.includes dot (decimal m)))
                (seq 0 1000) = true) by (vm_compute; reflexivity).
  rewrite forallb_forall in T.
  specialize (T (Z.to_nat n)). cbv zeta in T.
  rewrite Z2Nat.id in T by lia.
  assert (Hin : In (Z.to_nat n) (seq 0 1000)) by (apply in_seq; lia).
  apply T in Hin. apply andb_true_iff in Hin as [Hin Hdot].
  apply andb_true_iff in Hin as [Hgroup Hparse].
  repeat split; [exact Hgroup | | now apply negb_true_iff].
  destruct (parseInt10 (decimal n)) as [v|]; [|discriminate].
  apply Z.eqb_eq in Hparse. now subst.
Qed.

(** X6. A dotted quad of four numbers below 1000, written in decimal, is
    an IP address exactly when each of the four is at most 255. *)
Theorem dotted_quad_is_ip_iff_bytes (a b c d : Z) :
  0 <= a < 1000 -> 0 <= b < 1000 -> 0 <= c < 1000 -> 0 <= d < 1000 ->
  _isIPAddress (join dot [decimal a; decimal b; decimal c; decimal d])
  = (a <=? 255) && (b <=? 255) && (c <=? 255) && (d <=? 255).
Proof.
  intros Ha Hb Hc Hd.
  destruct (decimal_facts a Ha) as (Ga & Pa & Da).
  destruct (decimal_facts b Hb) as (Gb & Pb & Db).
  destruct (decimal_facts c Hc) as (Gc & Pc & Dc).
  destruct (decimal_facts d Hd) as (Gd & Pd & Dd).
  assert (S : Js.split dot (join dot [decimal a; decimal b; decimal c; decimal d])
              = [decimal a; decimal b; decimal c; decimal d]).
  { cbn [join].
    rewrite (split_app_sep dot _ _ Da), (split_app_sep dot _ _ Db),
      (split_app_sep dot _ _ Dc), (split_without_sep dot _ Dd).
    reflexivity. }
  unfold _isIPAddress, ipv4Regex. rewrite S. cbn [length forallb map Nat.eqb].
  rewrite Ga, Gb, Gc, Gd, Pa, Pb, Pc, Pd. cbn [andb inByteRange].
  replace (0 <=? a) with true by (symmetry; apply Z.leb_le; lia).
  replace (0 <=? b) with true by (symmetry; apply Z.leb_le; lia).
  replace (0 <=? c) with true by (symmetry; apply Z.leb_le; lia).
  replace (0 <=? d) with true by (symmetry; apply Z.leb_le; lia).
  cbn [andb]. now rewrite andb_true_r, !andb_assoc.
Qed.

Lemma dotted_quad_is_ip_iff_bytes_scenario :
  _isIPAddress (join dot [decimal 192; decimal 168; decimal 0; decimal 256])
  = (192 <=? 255) && (168 <=? 255) && (0 <=? 255) && (256 <=? 255).
Proof.
  apply (dotted_quad_is_ip_iff_bytes 192 168 0 256); lia.
Defined.

(** ** More on the comparators *)

(** X7. The public comparator always returns: the pieces of a
    comma-separated value hold no comma, so the recursion never goes
    deeper than one nested call, and any larger bound gives the same
    answer. *)
Theorem compareETags_always_returns (n : nat) (clientETag serverETag : string) :
  (exists answer, compareETags clientETag serverETag = Some answer)
  /\ compareETags_fuel (2 + n) clientETag serverETag
     = compareETags clientETag serverETag.
Proof.
  destruct (compareETags_total n clientETag serverETag) as [Hn H2].
  split; [eauto | congruence].
Qed.

Lemma compareETags_weak_strong_scenario :
  compareETags (strongTag "5d41402a") (weakTag "5d41402a") = Some true
  /\ compareETags (weakTag "5d41402a") (strongTag "5d41402a") = Some true.
Proof. apply (compareETags_weak_strong "5d41402a"). reflexivity. Defined.

Lemma normalize_without_lower_marker (etag : string) :
  hasLowerMarker etag = false -> normalize etag = normalizeETag etag.
Proof.
  unfold hasLowerMarker, normalize, normalizeETag.
  destruct etag as [|c1 [|c2 rest]]; try reflexivity.
  intros H. destruct (Ascii.eqb c2 "/").
  - rewrite andb_true_r in H. rewrite !andb_true_r, H, orb_false_r. reflexivity.
  - rewrite !andb_false_r. reflexivity.
Qed.

Lemma compareSingle_as_pipeline (tag serverETag : string) :
  tag <> EmptyString -> serverETag <> EmptyString ->
  hasLowerMarker tag = false -> hasLowerMarker serverETag = false ->
  compareSingle tag serverETag
  = (if String.eqb tag "*" then true
     else String.eqb (normalizeETag tag) (normalizeETag serverETag)).
Proof.
  intros Ht Hs Mt Ms. unfold compareSingle.
  apply truthy_true in Ht, Hs. rewrite Ht, Hs. cbn [negb orb].
  now rewrite (normalize_without_lower_marker _ Mt),
    (normalize_without_lower_marker _ Ms).
Qed.

(** X10. The public comparator and the comparison of the pipeline give
    the same answer on a client value and a server tag when the server
    tag is not empty, no tag starts with a lower-case w/ marker, no piece
    of the client value is empty, and a client value without a comma has
    no white space around it (the public comparator trims the pieces of a
    list only). *)
Theorem compareETags_agrees_with_pipeline
    (clientETag serverETag : string) (since : option string) :
  serverETag <> EmptyString ->
  hasLowerMarker serverETag = false ->
  Forall (fun tag => tag <> EmptyString /\ hasLowerMarker tag = false)
         (map Js.trim (Js.split comma clientETag)) ->
  (Js.includes comma clientETag = false -> Js.trim clientETag = clientETag) ->
  compareETags clientETag serverETag
  = Some (etagValidation {| cv_etag := Some clientETag; cv_modifiedSince := since |}
            serverETag).
Proof.
  intros Hs Ms Hall Htrim.
  rewrite (proj2 (compareETags_total 0 _ _)). f_equal.
  assert (Hc : clientETag <> EmptyString).
  { intros ->. cbn in Hall. inversion Hall as [|? ? [Hne _] _]. now apply Hne. }
  unfold compareETags_value, etagValidation. cbn [cv_etag].
  pose proof Hc as Tc. pose proof Hs as Ts. apply truthy_true in Tc, Ts.
  rewrite Tc, Ts. cbn [negb orb].
  assert (P : existsb (fun tag => compareSingle tag serverETag)
                (map Js.trim (Js.split comma clientETag))
              = anyETagMatches (map Js.trim (Js.split comma clientETag)) serverETag).
  { unfold anyETagMatches.
    induction Hall as [|tag tags [Hne Mt] _ IH]; [reflexivity|].
    cbn [existsb]. now rewrite IH, (compareSingle_as_pipeline tag _ Hne Hs Mt Ms). }
  destruct (Js.includes comma clientETag) eqn:Ec.
  - rewrite P. destruct (String.eqb clientETag "*") eqn:Estar; [|reflexivity].
    apply String.eqb_eq in Estar. subst. discriminate.
  - rewrite <- P, (split_without_sep _ _ Ec). cbn [map existsb].
    rewrite (Htrim eq_refl), orb_false_r.
    assert (Mc : hasLowerMarker clientETag = false).
    { rewrite (split_without_sep _ _ Ec) in Hall. cbn [map] in Hall.
      rewrite (Htrim eq_refl) in Hall. now inversion Hall as [|? ? [_ M] _]. }
    rewrite (compareSingle_as_pipeline _ _ Hc Hs Mc Ms).
    rewrite (normalize_without_lower_marker _ Mc),
      (normalize_without_lower_marker _ Ms).
    reflexivity.
Qed.

Lemma compareETags_agrees_with_pipeline_scenario :
  compareETags (strongTag "a" +:+ ", " +:+ weakTag "b") (strongTag "b")
  = Some (etagValidation
            {| cv_etag := Some (strongTag "a" +:+ ", " +:+ weakTag "b");
               cv_modifiedSince := None |}
            (strongTag "b")).
Proof.
  apply (compareETags_agrees_with_pipeline
           (strongTag "a" +:+ ", " +:+ weakTag "b") (strongTag "b") None).
  - discriminate.
  - reflexivity.
  - vm_compute. repeat constructor; discriminate.
  - vm_compute. discriminate.
Defined.

Lemma remove_all_excludes (c : ascii) (s : string) :
  Js.includes c (Js.remove_all c s) = false.
Proof.
  induction s as [|d s IH]; [reflexivity|]. cbn [Js.remove_all].
  destruct (Ascii.eqb d c) eqn:E; [exact IH|]. cbn. now rewrite E, IH.
Qed.

(** X11. Whatever the tag, its normal form holds no double quote, under
    both normalisations. *)
Theorem normal_form_has_no_quote (etag : string) :
  Js.includes dquote (normalizeETag etag) = false
  /\ Js.includes dquote (normalize etag) = false.
Proof. split; apply remove_all_excludes. Qed.

Lemma trimEnd_keeps_last (s : string) (c : ascii) :
  Js.is_space c = false ->
  Js.trimEnd (s +:+ String c EmptyString) = s +:+ String c EmptyString.
Proof.
  intros Hc. induction s as [|d s IH].
  - change (EmptyString +:+ String c EmptyString) with (String c EmptyString).
    cbn [Js.trimEnd]. now rewrite Hc.
  - rewrite append_cons. cbn [Js.trimEnd]. rewrite IH.
    destruct s; reflexivity.
Qed.

Lemma trim_strongTag (x : string) : Js.trim (strongTag x) = strongTag x.
Proof.
  unfold Js.trim, strongTag. cbn [Js.trimStart].
  change (Js.is_space dquote) with false. cbv iota.
  change (String dquote (x +:+ String dquote EmptyString))
    with (String dquote x +:+ String dquote EmptyString).
  now apply trimEnd_keeps_last.
Qed.

(** X12. A tag sent back as it is matches itself: for every non-empty
    tag without a comma and without white space around it, the pipeline
    compares the If-None-Match value equal to that tag with the tag as
    server tag and finds a match. *)
Theorem echoed_tag_matches (tag : string) (since : option string) :
  tag <> EmptyString ->
  Js.includes comma tag = false ->
  Js.trim tag = tag ->
  etagValidation {| cv_etag := Some tag; cv_modifiedSince := since |} tag = true.
Proof.
  intros Hne Hc Ht. unfold etagValidation. cbn [cv_etag].
  apply truthy_true in Hne. rewrite Hne, (split_without_sep _ _ Hc).
  cbn [map]. rewrite Ht. unfold anyETagMatches. cbn [existsb].
  rewrite String.eqb_refl. now destruct (String.eqb tag "*").
Qed.

Lemma echoed_tag_matches_scenario :
  etagValidation
    {| cv_etag := Some (weakTag "5d41402a"); cv_modifiedSince := None |}
    (weakTag "5d41402a") = true.
Proof.
  apply (echoed_tag_matches (weakTag "5d41402a") None).
  - discriminate.
  - reflexivity.
  - reflexivity.
Defined.

(** ** More on the validation *)

Section Engine.

Variable digest : string -> string -> string.
Variable dateParse : string -> option Z.

Local Abbreviation fingerprint self w :=
  (generateETag digest (body (ctx w)) (algorithm self) (strength self)).
Local Abbreviation generated self w :=
  (CallGenerateETag (body (ctx w)) (algorithm self) (strength self)).
Local Abbreviation handle := (handleCacheValidation digest dateParse).
Local Abbreviation step := (validationStep digest dateParse).

(** The date branch does nothing when a validator is missing or empty. *)
Lemma lastModified_missing (cv : ClientValidation) (w : World) :
  Js.truthy_opt (cv_modifiedSince cv) = false
  \/ Js.truthy_opt (header (ctx w) !! "last-modified") = false ->
  lastModifiedValidation dateParse cv w = (Continue, w).
Proof.
  intros H. unfold lastModifiedValidation.
  destruct (cv_modifiedSince cv) as [since|]; [|reflexivity].
  destruct (Js.truthy since) eqn:Ts; [|reflexivity].
  destruct H as [H | H]; [cbn in H; congruence|].
  unfold bind, header_get, bind, getCtx, ret.
  destruct (header (ctx w) !! "last-modified") as [lm|]; [|reflexivity].
  cbn in H. now rewrite H.
Qed.

(** The dates the date branch builds: none, or Last-Modified and then
    If-Modified-Since. *)
Lemma lastModified_calls (cv : ClientValidation) (w : World) :
  calls (snd (lastModifiedValidation dateParse cv w)) = calls w
  \/ exists lm since,
       header (ctx w) !! "last-modified" = Some lm
       /\ cv_modifiedSince cv = Some since
       /\ calls (snd (lastModifiedValidation dateParse cv w))
          = calls w ++ [CallNewDate lm; CallNewDate since].
Proof.
  unfold lastModifiedValidation.
  destruct (cv_modifiedSince cv) as [since|]; [|now left].
  destruct (Js.truthy since); [|now left].
  unfold bind, header_get, bind, getCtx, ret.
  destruct (header (ctx w) !! "last-modified") as [lm|]; [|now left].
  destruct (Js.truthy lm); [|now left].
  right. exists lm, since. repeat split.
  unfold parseDate, bind, record, ret. cbn [ctx calls].
  destruct (dateParse lm) as [t1|], (dateParse since) as [t2|];
    try destruct (t1 <=? t2); cbn; now rewrite <- app_assoc.
Qed.

Lemma handle_attaches (self : SettingsChannel) (cv : ClientValidation) (w : World) :
  header (ctx (snd (handle self cv w))) !! "etag" = Some (fingerprint self w).
Proof.
  destruct (fst (handle self cv w)) eqn:E.
  - rewrite handle_run in *. cbv zeta in *.
    destruct (etagValidation cv (fingerprint self w)); [discriminate|].
    rewrite (lastModified_continue _ _ _ E). cbn. apply lookup_insert_eq.
  - rewrite (handle_notModified _ _ self cv w E). cbn.
    rewrite !lookup_delete_ne by discriminate. apply lookup_insert_eq.
Qed.

Lemma handle_continue (self : SettingsChannel) (cv : ClientValidation) (w : World) :
  fst (handle self cv w) = Continue ->
  ctx (snd (handle self cv w)) = attachETag (fingerprint self w) (ctx w).
Proof.
  rewrite handle_run. cbv zeta.
  destruct (etagValidation cv (fingerprint self w)); [discriminate|].
  intros E. now rewrite (lastModified_continue _ _ _ E).
Qed.

(** X13. Every eligible response leaves the validation step with an
    ETag header whose value is the fingerprint of its body, whether the
    outcome is [Continue] or [NotModified]. *)
Theorem eligible_response_gets_fingerprint
    (self : SettingsChannel) (cv : ClientValidation) (w : World) :
  shouldProcessValidation (ctx w) = true ->
  header (ctx (snd (step self cv w))) !! "etag" = Some (fingerprint self w).
Proof.
  intros E. rewrite (step_runs _ _ self cv w E). apply handle_attaches.
Qed.

(** X14. One validation hashes the body exactly once and, after that,
    builds either no date at all or exactly two, the Last-Modified header
    first and the If-Modified-Since value second; with an ETag match it
    builds none. *)
Theorem validation_call_profile
    (self : SettingsChannel) (cv : ClientValidation) (w : World) :
  calls (snd (handle self cv w)) = calls w ++ [generated self w]
  \/ exists lm since,
       etagValidation cv (fingerprint self w) = false
       /\ header (ctx w) !! "last-modified" = Some lm
       /\ cv_modifiedSince cv = Some since
       /\ calls (snd (handle self cv w))
          = calls w ++ [generated self w; CallNewDate lm; CallNewDate since].
Proof.
  rewrite handle_run. cbv zeta.
  destruct (etagValidation cv (fingerprint self w)) eqn:E; [now left|].
  destruct (lastModified_calls cv
              {| ctx := attachETag (fingerprint self w) (ctx w);
                 calls := calls w ++ [generated self w] |})
    as [H | (lm & since & Hl & Hs & H)]; [left; exact H | right].
  exists lm, since. repeat split; try assumption.
  - cbn [ctx] in Hl. rewrite attachETag_other in Hl; [assumption | discriminate].
  - rewrite H. cbn [calls]. now rewrite <- app_assoc.
Qed.

(** X15. When the outcome is [Continue] the response keeps its status,
    its body and all its headers; the validation only added the ETag
    header. *)
Theorem continue_only_adds_etag
    (self : SettingsChannel) (cv : ClientValidation) (w : World) :
  fst (handle self cv w) = Continue ->
  ctx (snd (handle self cv w)) = attachETag (fingerprint self w) (ctx w)
  /\ status (ctx (snd (handle self cv w))) = status (ctx w)
  /\ body (ctx (snd (handle self cv w))) = body (ctx w)
  /\ forall name, name <> "etag" ->
       header (ctx (snd (handle self cv w))) !! name = header (ctx w) !! name.
Proof.
  intros E. rewrite (handle_continue self cv w E).
  repeat split. intros name Hne. now apply attachETag_other.
Qed.

(** X16. Without an ETag match, a missing or empty If-Modified-Since
    value, or a missing or empty Last-Modified header, ends the validation
    with [Continue]: the fingerprint is attached, nothing else changes and
    no date is built. *)
Theorem missing_date_validator_continues
    (self : SettingsChannel) (cv : ClientValidation) (w : World) :
  etagValidation cv (fingerprint self w) = false ->
  Js.truthy_opt (cv_modifiedSince cv) = false
  \/ Js.truthy_opt (header (ctx w) !! "last-modified") = false ->
  handle self cv w
  = (Continue,
     {| ctx := attachETag (fingerprint self w) (ctx w);
        calls := calls w ++ [generated self w] |}).
Proof.
  intros E H. rewrite handle_run. cbv zeta. rewrite E.
  apply lastModified_missing. destruct H as [H | H]; [now left | right].
  cbn [ctx]. rewrite attachETag_other; [assumption | discriminate].
Qed.

Lemma ineligible_without_body (c : HttpContext) :
  body c = None -> shouldProcessValidation c = false.
Proof.
  intros H. unfold shouldProcessValidation. rewrite H. cbn [Js.truthy_opt].
  now rewrite andb_false_r.
Qed.

Lemma ineligible_with_etag (c : HttpContext) (tag : string) :
  header c !! "etag" = Some tag -> Js.truthy tag = true ->
  shouldProcessValidation c = false.
Proof.
  intros H T. unfold shouldProcessValidation. rewrite H. cbn [Js.truthy_opt].
  rewrite T. apply andb_false_r.
Qed.

(** X17. The validation step runs at most once on a response: when the
    fingerprint is not the empty string, a second step after the first,
    with any validators, is skipped and changes nothing. *)
Theorem validation_step_runs_once
    (self : SettingsChannel) (cv cv' : ClientValidation) (w : World) :
  Js.truthy (fingerprint self w) = true ->
  step self cv' (snd (step self cv w)) = (Continue, snd (step self cv w)).
Proof.
  intros T. apply step_skips.
  destruct (shouldProcessValidation (ctx w)) eqn:E.
  - rewrite (step_runs _ _ self cv w E).
    destruct (fst (handle self cv w)) eqn:O.
    + apply (ineligible_with_etag _ (fingerprint self w)); [|exact T].
      apply handle_attaches.
    + apply ineligible_without_body.
      now rewrite (handle_notModified _ _ self cv w O).
  - now rewrite (step_skips _ _ self cv w E).
Qed.

Lemma etagValidation_echo (tag : string) (since : option string) :
  tag <> EmptyString ->
  Js.includes comma tag = false ->
  Js.trim tag = tag ->
  etagValidation {| cv_etag := Some tag; cv_modifiedSince := since |} tag = true.
Proof.
  intros Hne Hc Ht. unfold etagValidation. cbn [cv_etag].
  apply truthy_true in Hne. rewrite Hne, (split_without_sep _ _ Hc).
  cbn [map]. rewrite Ht. unfold anyETagMatches. cbn [existsb].
  rewrite String.eqb_refl. now destruct (String.eqb tag "*").
Qed.

(** X18. A client that sends back the ETag it was given gets a 304 while
    the body stays the same: if an eligible response left with the ETag
    header [tag], non-empty, without a comma and without white space
    around it, then a later eligible response with the same body, for a
    request whose If-None-Match value is [tag], ends [NotModified] with
    status 304. *)
Theorem echoed_etag_gives_not_modified
    (self : SettingsChannel) (cv : ClientValidation) (w1 w2 : World)
    (tag : string) (since : option string) :
  shouldProcessValidation (ctx w1) = true ->
  shouldProcessValidation (ctx w2) = true ->
  body (ctx w2) = body (ctx w1) ->
  header (ctx (snd (step self cv w1))) !! "etag" = Some tag ->
  tag <> EmptyString ->
  Js.includes comma tag = false ->
  Js.trim tag = tag ->
  fst (step self {| cv_etag := Some tag; cv_modifiedSince := since |} w2)
  = NotModified
  /\ status (ctx (snd (step self {| cv_etag := Some tag;
                                    cv_modifiedSince := since |} w2))) = 304.
Proof.
  intros E1 E2 Hb Htag Hne Hc Ht.
  rewrite (step_runs _ _ self cv w1 E1), handle_attaches in Htag.
  injection Htag as Htag.
  assert (O : fst (step self {| cv_etag := Some tag; cv_modifiedSince := since |} w2)
              = NotModified).
  { rewrite (step_runs _ _ self _ w2 E2), handle_run. cbv zeta.
    rewrite Hb, Htag, (etagValidation_echo tag since Hne Hc Ht). reflexivity. }
  split; [exact O|].
  rewrite (step_runs _ _ self _ w2 E2) in *.
  now rewrite (handle_notModified _ _ self _ w2 O).
Qed.

(** X19. Rewriting a response to 304 twice is the same as rewriting it
    once. *)
Theorem sendNotModified_twice (w : World) :
  sendNotModified (snd (sendNotModified w)) = sendNotModified w.
Proof.
  rewrite !sendNotModified_run. cbn [snd ctx calls]. do 2 f_equal.
  unfold rewrite304, with_header, with_body, with_status. cbn.
  f_equal. apply map_eq. intros name.
  destruct (decide (name = "content-length")) as [-> | H1].
  - now rewrite !lookup_delete_eq.
  - rewrite !(lookup_delete_ne _ "content-length" name) by congruence.
    destruct (decide (name = "content-type")) as [-> | H2].
    + now rewrite !lookup_delete_eq.
    + repeat (first [ rewrite (lookup_delete_ne _ "content-type" name) by congruence
                    | rewrite (lookup_delete_ne _ "content-length" name) by congruence ]).
      reflexivity.
Qed.

End Engine.

Lemma eligible_response_gets_fingerprint_scenario :
  header (ctx (snd (validationStep Sample.plainDigest Sample.imfFixdate
                      Sample.defaults (Sample.validators None None)
                      (Sample.start Sample.page)))) !! "etag"
  = Some (generateETag Sample.plainDigest (Some "abc") "sha256" strong).
Proof.
  apply (eligible_response_gets_fingerprint Sample.plainDigest Sample.imfFixdate
           Sample.defaults (Sample.validators None None)
           (Sample.start Sample.page)).
  reflexivity.
Defined.

Lemma continue_only_adds_etag_scenario :
  status (ctx (snd (handleCacheValidation Sample.plainDigest Sample.imfFixdate
                      Sample.defaults
                      (Sample.validators (Some (strongTag "old")) None)
                      (Sample.start Sample.page)))) = 200
  /\ body (ctx (snd (handleCacheValidation Sample.plainDigest Sample.imfFixdate
                       Sample.defaults
                       (Sample.validators (Some (strongTag "old")) None)
                       (Sample.start Sample.page)))) = Some "abc".
Proof.
  destruct (continue_only_adds_etag Sample.plainDigest Sample.imfFixdate
              Sample.defaults (Sample.validators (Some (strongTag "old")) None)
              (Sample.start Sample.page)) as (_ & Hstatus & Hbody & _).
  - vm_compute. reflexivity.
  - split; [exact Hstatus | exact Hbody].
Defined.

Lemma missing_date_validator_continues_scenario :
  handleCacheValidation Sample.plainDigest Sample.imfFixdate Sample.defaults
    (Sample.validators (Some (strongTag "old")) None)
    (Sample.start Sample.page)
  = (Continue,
     {| ctx := attachETag (strongTag "abc") Sample.page;
        calls := [CallGenerateETag (Some "abc") "sha256" strong] |}).
Proof.
  apply (missing_date_validator_continues Sample.plainDigest Sample.imfFixdate
           Sample.defaults (Sample.validators (Some (strongTag "old")) None)
           (Sample.start Sample.page)).
  - reflexivity.
  - left. reflexivity.
Defined.

Lemma validation_step_runs_once_scenario :
  validationStep Sample.plainDigest Sample.imfFixdate Sample.defaults
    (Sample.validators (Some (strongTag "abc")) None)
    (snd (validationStep Sample.plainDigest Sample.imfFixdate Sample.defaults
            (Sample.validators None None) (Sample.start Sample.page)))
  = (Continue,
     snd (validationStep Sample.plainDigest Sample.imfFixdate Sample.defaults
            (Sample.validators None None) (Sample.start Sample.page))).
Proof.
  apply (validation_step_runs_once Sample.plainDigest Sample.imfFixdate
           Sample.defaults (Sample.validators None None)
           (Sample.validators (Some (strongTag "abc")) None)
           (Sample.start Sample.page)).
  reflexivity.
Defined.

Lemma echoed_etag_gives_not_modified_scenario :
  fst (validationStep Sample.plainDigest Sample.imfFixdate Sample.defaults
         {| cv_etag := Some (strongTag "abc"); cv_modifiedSince := None |}
         (Sample.start (with_status 201 Sample.page))) = NotModified
  /\ status (ctx (snd (validationStep Sample.plainDigest Sample.imfFixdate
                         Sample.defaults
                         {| cv_etag := Some (strongTag "abc");
                            cv_modifiedSince := None |}
                         (Sample.start (with_status 201 Sample.page))))) = 304.
Proof.
  apply (echoed_etag_gives_not_modified Sample.plainDigest Sample.imfFixdate
           Sample.defaults (Sample.validators None None)
           (Sample.start Sample.page)
           (Sample.start (with_status 201 Sample.page))
           (strongTag "abc") None); try reflexivity.
  discriminate.
Defined.

(** X21. An empty server tag is matched by nothing in the public
    comparator, not even by the wildcard, and neither is any server tag
    by an empty client value; the pipeline's [anyETagMatches] lets the
    wildcard match every server tag, the empty one included. *)
Theorem compareETags_empty_never_matches (clientETag serverETag : string) :
  compareETags clientETag EmptyString = Some false
  /\ compareETags EmptyString serverETag = Some false
  /\ anyETagMatches ["*"] serverETag = true.
Proof.
  repeat split. unfold compareETags. cbn [compareETags_fuel].
  cbn [Js.truthy negb]. now rewrite orb_true_r.
Qed.

(** ** The comparison against the words of the specification *)























(** C1, as stated, fails for an ETag header that is present with an
    empty value: line 123 tests the value for truthiness, so the
    validation runs, hashes the body and overwrites the header. *)
Lemma empty_etag_header_is_overwritten :
  header (attachETag EmptyString Sample.page) !! "etag" = Some EmptyString
  /\ validationStep Sample.plainDigest Sample.imfFixdate Sample.defaults
       (Sample.validators None None)
       (Sample.start (attachETag EmptyString Sample.page))
     <> (Continue, Sample.start (attachETag EmptyString Sample.page))
  /\ header (ctx (snd (validationStep Sample.plainDigest Sample.imfFixdate
                         Sample.defaults (Sample.validators None None)
                         (Sample.start (attachETag EmptyString Sample.page)))))
       !! "etag" = Some (strongTag "abc")
  /\ calls (snd (validationStep Sample.plainDigest Sample.imfFixdate
                   Sample.defaults (Sample.validators None None)
                   (Sample.start (attachETag EmptyString Sample.page))))
     = [CallGenerateETag (Some "abc") "sha256" strong].
Proof.
  split; [reflexivity|]. split; [|split; vm_compute; reflexivity].
  intros H. apply (f_equal (fun r => calls (snd r))) in H.
  vm_compute in H. discriminate.
Qed.
